(** * aider/linter.py: the lint dispatcher, the parse-tree error scanner,
      the compile fallback and the context renderer

    A shallow embedding of [src/aider/linter.py].  Python values are
    modelled as follows.

    - [str] is a list of Unicode code points ([N]); [bytes] is a list of
      [Byte.byte]; [bytes.decode()] is the strict UTF-8 decoder.
    - Python integers are [Z].
    - [None]-or-value results are [option]; raised exceptions are the
      [Raise] constructor of [result].
    - A method that talks to the outside (the file system, a subprocess,
      the host compiler) runs in the monad [M], which records the calls
      made, in order, next to the result.
    - The collaborators that are not part of the module (grep_ast,
      tree_sitter_languages, os.path, pathlib, subprocess, compile,
      traceback) are the fields of a [World], and so is the number of
      nested calls the interpreter still allows to the recursive
      scanner. *)

From Stdlib Require Import ZArith NArith Strings.Ascii Strings.String Strings.Byte.
From Stdlib Require Import DecimalString.
From stdpp Require Import base option list gmap.
From Stdlib Require Import Lia.

Local Open Scope Z_scope.

(** ** Python strings *)

Module Py.

(** A [str] is a sequence of code points. *)
Abbreviation char := N (only parsing).
Abbreviation str := (list N) (only parsing).
Abbreviation bytes := (list Byte.byte) (only parsing).

(** The code points of an ASCII literal. *)
Definition lit (s : string) : str :=
  List.map N_of_ascii (list_ascii_of_string s).

(** The line feed, written backslash-n in the source. *)
Definition NL : str := [10%N].

(** [c.isspace()]: the Unicode white space code points. *)
Definition isspace (c : char) : bool :=
  ((9 <=? c) && (c <=? 13) || (28 <=? c) && (c <=? 32)
   || (c =? 133) || (c =? 160) || (c =? 5760)
   || (8192 <=? c) && (c <=? 8202)
   || (c =? 8232) || (c =? 8233) || (c =? 8239) || (c =? 8287)
   || (c =? 12288))%N.

(** [s.split()] with no separator: the maximal runs of non-space
    characters, in order.  [cur] is the word being read, reversed. *)
Fixpoint split_from (cur : str) (s : str) : list str :=
  match s with
  | [] => match cur with [] => [] | _ => [rev cur] end
  | c :: s' =>
      if isspace c
      then match cur with
           | [] => split_from [] s'
           | _ => rev cur :: split_from [] s'
           end
      else split_from (c :: cur) s'
  end.

Definition split (s : str) : list str := split_from [] s.

(** [prefix.startswith]-style test and [target in line]. *)
Fixpoint startswith (s t : str) : bool :=
  match t, s with
  | [], _ => true
  | _ :: _, [] => false
  | b :: t', a :: s' => (a =? b)%N && startswith s' t'
  end.

Fixpoint contains (line target : str) : bool :=
  startswith line target
  || match line with
     | [] => false
     | _ :: line' => contains line' target
     end.

(** [s.splitlines()]: a line ends at a line boundary (LF, CR, CR LF, VT,
    FF, FS, GS, RS, NEL, LS, PS); no empty last line. *)
Definition is_linebreak (c : char) : bool :=
  ((10 <=? c) && (c <=? 13) || (28 <=? c) && (c <=? 30)
   || (c =? 133) || (c =? 8232) || (c =? 8233))%N.

Fixpoint splitlines_from (cur : str) (s : str) : list str :=
  match s with
  | [] => match cur with [] => [] | _ => [rev cur] end
  | c :: s' =>
      if is_linebreak c
      then match s' with
           | d :: s'' =>
               if ((c =? 13) && (d =? 10))%N
               then rev cur :: splitlines_from [] s''
               else rev cur :: splitlines_from [] s'
           | [] => [rev cur]
           end
      else splitlines_from (c :: cur) s'
  end.

Definition splitlines (s : str) : list str := splitlines_from [] s.

(** [f"{n:3}"] for a non-negative integer: decimal digits, right-aligned
    on three columns. *)
Definition decimal (n : Z) : str :=
  lit (NilZero.string_of_uint (N.to_uint (Z.to_N n))).

Definition rjust (w : nat) (s : str) : str :=
  replicate (w - length s)%nat 32%N ++ s.

Definition endswith (s t : str) : bool := startswith (rev s) (rev t).

(** [list(range(a, b))]. *)
Definition range (a b : Z) : list Z :=
  List.map (fun i => a + Z.of_nat i) (seq 0 (Z.to_nat (b - a))).

(** [bytes.decode()]: strict UTF-8 (well-formed sequences of the Unicode
    standard, table 3-7); [None] stands for UnicodeDecodeError. *)
Definition in_range (lo hi : N) (b : Byte.byte) : bool :=
  ((lo <=? Byte.to_N b) && (Byte.to_N b <=? hi))%N.

Definition cont (b : Byte.byte) : N := (Byte.to_N b - 128)%N.

Fixpoint decode (bs : bytes) : option str :=
  match bs with
  | [] => Some []
  | b1 :: r1 =>
      if in_range 0 127 b1 then cons (Byte.to_N b1) <$> decode r1
      else match r1 with
      | [] => None
      | b2 :: r2 =>
          if in_range 194 223 b1 && in_range 128 191 b2
          then cons ((Byte.to_N b1 - 192) * 64 + cont b2)%N <$> decode r2
          else match r2 with
          | [] => None
          | b3 :: r3 =>
              if (in_range 224 224 b1 && in_range 160 191 b2
                  || in_range 225 236 b1 && in_range 128 191 b2
                  || in_range 237 237 b1 && in_range 128 159 b2
                  || in_range 238 239 b1 && in_range 128 191 b2)
                 && in_range 128 191 b3
              then cons ((Byte.to_N b1 - 224) * 4096 + cont b2 * 64
                         + cont b3)%N <$> decode r3
              else match r3 with
              | [] => None
              | b4 :: r4 =>
                  if (in_range 240 240 b1 && in_range 144 191 b2
                      || in_range 241 243 b1 && in_range 128 191 b2
                      || in_range 244 244 b1 && in_range 128 143 b2)
                     && in_range 128 191 b3 && in_range 128 191 b4
                  then cons ((Byte.to_N b1 - 240) * 262144
                             + cont b2 * 4096 + cont b3 * 64
                             + cont b4)%N <$> decode r4
                  else None
              end
          end
      end
  end.

(** [bytes(s, "utf-8")]: the UTF-8 encoding of a string; [None] stands
    for UnicodeEncodeError, raised for a surrogate code point (and for a
    number that is no code point at all). *)
Definition byte_of (n : N) : Byte.byte := default Byte.x00 (Byte.of_N n).

Definition encode_char (c : char) : option bytes :=
  if (c <? 128)%N then Some [byte_of c]
  else if (c <? 2048)%N
  then Some [byte_of (192 + c / 64); byte_of (128 + c mod 64)]%N
  else if (c <? 65536)%N
  then if ((55296 <=? c) && (c <=? 57343))%N then None
       else Some [byte_of (224 + c / 4096);
                  byte_of (128 + (c / 64) mod 64);
                  byte_of (128 + c mod 64)]%N
  else if (c <=? 1114111)%N
  then Some [byte_of (240 + c / 262144);
             byte_of (128 + (c / 4096) mod 64);
             byte_of (128 + (c / 64) mod 64);
             byte_of (128 + c mod 64)]%N
  else None.

Fixpoint encode (s : str) : option bytes :=
  match s with
  | [] => Some []
  | c :: s' =>
      match encode_char c, encode s' with
      | Some b, Some bs => Some (b ++ bs)
      | _, _ => None
      end
  end.

End Py.

Import Py.

(** ** Results, exceptions and the call log *)

(** An attribute of an exception object that may be absent, [None] or an
    integer ([err.lineno], [err.end_lineno]). *)
Inductive attr :=
  | NoAttr
  | AttrNone
  | AttrInt (z : Z).

(** A raised exception: its class and the two position attributes the
    module reads.  Every exception here is an instance of [Exception]. *)
Record pyexc := mkExc {
  exc_class : str;
  exc_lineno : attr;
  exc_end_lineno : attr
}.

Definition AttributeError : pyexc := mkExc (lit "AttributeError") NoAttr NoAttr.
Definition TypeError : pyexc := mkExc (lit "TypeError") NoAttr NoAttr.
Definition UnicodeDecodeError : pyexc :=
  mkExc (lit "UnicodeDecodeError") NoAttr NoAttr.
Definition UnicodeEncodeError : pyexc :=
  mkExc (lit "UnicodeEncodeError") NoAttr NoAttr.
Definition RecursionError : pyexc :=
  mkExc (lit "RecursionError") NoAttr NoAttr.

Inductive result (A : Type) :=
  | Return (a : A)
  | Raise (e : pyexc).
Arguments Return {A} a.
Arguments Raise {A} e.

(** Sequencing of steps that can raise. *)
#[global] Instance result_ret : MRet result := @Return.
#[global] Instance result_bind : MBind result :=
  fun A B k r => match r with Return a => k a | Raise e => Raise e end.

(** The calls that leave the process. *)
Inductive event :=
  | EvReadText (fname encoding : str)
  | EvCheckOutput (argv : list str) (cwd : option str)
  | EvCompile (code fname : str).

(** A computation: the calls it made, in order, and how it ended. *)
Definition M (A : Type) : Type := (list event * result A)%type.

Definition ret {A} (a : A) : M A := ([], Return a).
Definition raise {A} (e : pyexc) : M A := ([], Raise e).
Definition emit (ev : event) : M unit := ([ev], Return tt).
Definition lift {A} (r : result A) : M A := ([], r).

Definition bind {A B} (k : A -> M B) (m : M A) : M B :=
  match m with
  | (t, Return a) => let '(t', r) := k a in (t ++ t', r)
  | (t, Raise e) => (t, Raise e)
  end.

#[global] Instance M_ret : MRet M := @ret.
#[global] Instance M_bind : MBind M := @bind.

Definition trace {A} (m : M A) : list event := fst m.
Definition outcome {A} (m : M A) : result A := snd m.

(** ** The syntax tree (tree_sitter) *)

#[local] Set Warnings "-register-all".

Inductive Node := mkNode {
  type : str;
  is_missing : bool;
  start_point : Z * Z;
  children : list Node
}.

(** [traverse_tree], linter.py lines 152-161.  The function calls itself
    once for every level of the tree, and the interpreter allows only so
    many nested calls: [frames] is the number of calls still allowed when
    the function is entered, and a call beyond it raises RecursionError,
    which nothing in the function catches. *)
Fixpoint traverse_tree (frames : nat) (node : Node) : result (list Z) :=
  match frames with
  | O => Raise RecursionError
  | S frames' =>
      let errors := [] in
      let errors :=
        if bool_decide (type node = lit "ERROR") || is_missing node
        then
          let line_no := fst (start_point node) in
          errors ++ [line_no]
        else errors in
      foldl (fun acc child =>
               errors ← acc;
               more ← traverse_tree frames' child;
               mret (errors ++ more))
            (mret errors) (children node)
  end.

(** ** The context renderer's engine (grep_ast.TreeContext) *)

(** Modelled from the spec: grep_ast's [TreeContext] class, which is not
    part of the module.  Its state is the constructor's options, the lines
    of the source, the lines of interest and the lines selected for
    display.  The display always includes every line of interest; the
    other lines (enclosing scope headers, padding) are chosen by the
    engine's heuristic, which is a parameter ([context_lines] below).
    Each displayed line carries its line number and a marker glyph: a
    full block for a line of interest, a light vertical bar for a plain
    context line. *)
Record TreeContext := mkTreeContext {
  filename : str;
  code : str;
  color : bool;
  line_number : bool;
  child_context : bool;
  last_line : bool;
  margin : Z;
  mark_lois : bool;
  loi_pad : Z;
  show_top_of_file_parent_scope : bool;
  lines : list str;
  lines_of_interest : gset Z;
  show_lines : gset Z
}.

(** The marker glyphs: U+2588 FULL BLOCK, which the header of
    [tree_context] names, and U+2502 BOX DRAWINGS LIGHT VERTICAL. *)
Definition FULL_BLOCK : N := 9608%N.
Definition LIGHT_VERTICAL : N := 9474%N.

(** Modelled from the spec: one element of the context window, that is
    a zero-based line number, the text of the line and whether it is
    marked (a row that is not marked is a plain context line). *)
Record row := mkRow {
  row_lineno : Z;
  row_text : str;
  row_marked : bool
}.

Module TC.

(** Modelled from the spec: the constructor of grep_ast's TreeContext;
    nothing is of interest or displayed yet. *)
Definition new (filename code : str)
    (color line_number child_context last_line : bool) (margin : Z)
    (mark_lois : bool) (loi_pad : Z)
    (show_top_of_file_parent_scope : bool) : TreeContext :=
  mkTreeContext filename code color line_number child_context last_line
    margin mark_lois loi_pad show_top_of_file_parent_scope
    (splitlines code) ∅ ∅.

(** Modelled from the spec: TreeContext.add_lines_of_interest. *)
Definition add_lines_of_interest (line_nums : gset Z) (tc : TreeContext)
    : TreeContext :=
  mkTreeContext (filename tc) (code tc) (color tc) (line_number tc)
    (child_context tc) (last_line tc) (margin tc) (mark_lois tc)
    (loi_pad tc) (show_top_of_file_parent_scope tc) (lines tc)
    (lines_of_interest tc ∪ line_nums) (show_lines tc).

(** Modelled from the spec: TreeContext.add_context.  The display is
    every line of interest plus the lines [heuristic] chooses. *)
Definition add_context (heuristic : TreeContext -> gset Z)
    (tc : TreeContext) : TreeContext :=
  mkTreeContext (filename tc) (code tc) (color tc) (line_number tc)
    (child_context tc) (last_line tc) (margin tc) (mark_lois tc)
    (loi_pad tc) (show_top_of_file_parent_scope tc) (lines tc)
    (lines_of_interest tc)
    (lines_of_interest tc ∪ heuristic tc).

(** Modelled from the spec: the context window, that is the displayed
    lines of the file, in file order; a displayed line is marked when
    marking is on and it is a line of interest. *)
Fixpoint window_from (tc : TreeContext) (i : Z) (ls : list str)
    : list row :=
  match ls with
  | [] => []
  | line :: ls' =>
      if bool_decide (i ∈ show_lines tc)
      then mkRow i line
             (mark_lois tc && bool_decide (i ∈ lines_of_interest tc))
           :: window_from tc (i + 1) ls'
      else window_from tc (i + 1) ls'
  end.

(** Modelled from the spec: the context window of the whole file. *)
Definition window (tc : TreeContext) : list row :=
  window_from tc 0 (lines tc).

(** Modelled from the spec: the glyph that tells a line of interest
    from a plain context line. *)
Definition glyph (marked : bool) : N :=
  if marked then FULL_BLOCK else LIGHT_VERTICAL.

(** Modelled from the spec: one displayed line, that is the one-based
    line number on three columns (when line numbers are on), the glyph,
    the text and a line feed. *)
Definition render_row (tc : TreeContext) (r : row) : str :=
  (if line_number tc then rjust 3 (decimal (row_lineno r + 1)) else [])
  ++ [glyph (row_marked r)] ++ row_text r ++ NL.

(** Modelled from the spec: TreeContext.format, the rendered window. *)
Definition format (tc : TreeContext) : str :=
  concat (List.map (render_row tc) (window tc)).

End TC.

(** ** The collaborators *)

(** How [subprocess.check_output] ended: the process ran and exited with
    [returncode], [output] being what it wrote; or it could not be run. *)
Inductive proc_outcome :=
  | Completed (returncode : Z) (output : bytes)
  | SpawnError (e : pyexc).

Record World := mkWorld {
  (** grep_ast.filename_to_lang *)
  filename_to_lang : str -> option str;
  (** tree_sitter_languages.get_parser; the parser is given as the
      function from a text to the root node of the tree parsed from its
      UTF-8 bytes, [parser.parse(...).root_node] *)
  get_parser : str -> result (str -> Node);
  (** Path(fname).read_text(encoding) *)
  read_text : str -> str -> result str;
  (** os.path.relpath(fname, root) *)
  relpath : str -> str -> result str;
  (** subprocess.check_output(argv, cwd=root) *)
  check_output : list str -> option str -> proc_outcome;
  (** compile(code, fname, "exec"): the exception raised, if any *)
  compile : str -> str -> option pyexc;
  (** traceback.format_exception(type(err), err, err.__traceback__) *)
  format_exception : pyexc -> list str;
  (** the context heuristic of grep_ast's TreeContext.add_context *)
  context_lines : TreeContext -> gset Z;
  (** the nested calls the interpreter still allows where [basic_lint]
      calls [traverse_tree]: [sys.getrecursionlimit()] less the depth of
      the stack there *)
  recursion_frames : nat
}.

(** Python truth value of a string and of an optional string. *)
Definition truthy (s : str) : bool :=
  match s with [] => false | _ => true end.

Definition truthy_opt (o : option str) : bool :=
  match o with Some s => truthy s | None => false end.

(** [bytes(code, "utf-8")], line 117. *)
Definition bytes_utf8 (code : str) : result bytes :=
  match encode code with
  | Some b => Return b
  | None => Raise UnicodeEncodeError
  end.

(** ** linter.py *)

Section Linter.

Variable W : World.

(** [tree_context], linter.py lines 126-148. *)
Definition tree_context (fname code : str) (line_nums : list Z) : str :=
  let context :=
    TC.new fname code
      (* color *) false (* line_number *) true (* child_context *) false
      (* last_line *) false (* margin *) 0 (* mark_lois *) true
      (* loi_pad *) 5 (* show_top_of_file_parent_scope *) false in
  let line_nums : gset Z := list_to_set line_nums in
  let context := TC.add_lines_of_interest line_nums context in
  let context := TC.add_context (context_lines W) context in
  let s := if bool_decide (1 < size line_nums)%nat then lit "s" else [] in
  let output :=
    lit "# Fix the error" ++ s ++ lit ", see relevant line" ++ s
    ++ lit " below marked with " ++ [FULL_BLOCK]
    ++ lit "." ++ NL ++ NL in
  let output := output ++ fname ++ lit ":" ++ NL in
  let output := output ++ TC.format context in
  output.

(** [basic_lint], linter.py lines 107-123. *)
Definition basic_lint (fname code : str) : M (option str) :=
  match filename_to_lang W fname with
  | Some (c :: l) =>
      let lang := c :: l in
      parser ← lift (get_parser W lang);
      _ ← lift (bytes_utf8 code);
      let tree := parser code in
      errors ← lift (traverse_tree (recursion_frames W) tree);
      match errors with
      | [] => mret None
      | _ => mret (Some (tree_context fname code errors))
      end
  | _ => mret None
  end.

(** The marker comment looked for in the traceback. *)
Definition target : str := lit "# USE TRACEBACK" ++ lit " BELOW HERE".

(** The loop of lines 94-97: the index of the first traceback line that
    contains the marker, counting from [i]. *)
Fixpoint first_with_target (i : nat) (tb_lines : list str) : option nat :=
  match tb_lines with
  | [] => None
  | l :: tb_lines' =>
      if contains l target then Some i
      else first_with_target (S i) tb_lines'
  end.

(** Line 87: [list(range(err.lineno - 1, err.end_lineno))]. *)
Definition line_numbers_of (err : pyexc) : result (list Z) :=
  match exc_lineno err with
  | NoAttr => Raise AttributeError
  | AttrNone => Raise TypeError
  | AttrInt lineno =>
      match exc_end_lineno err with
      | NoAttr => Raise AttributeError
      | AttrNone => Raise TypeError
      | AttrInt end_lineno => Return (range (lineno - 1) end_lineno)
      end
  end.

(** Lines 89-99: the traceback without the frames of the linter. *)
Definition filtered_traceback (err : pyexc) : list str :=
  let tb_lines := format_exception W err in
  let last_file_i := default 0%nat (first_with_target 0 tb_lines) in
  take 1 tb_lines ++ drop (last_file_i + 1) tb_lines.

(** [lint_python_compile], linter.py lines 82-104. *)
Definition lint_python_compile (fname code : str) : M (option str) :=
  emit (EvCompile code fname);;
  match compile W code fname with
  | None => mret None
  | Some err =>
      line_numbers ← lift (line_numbers_of err);
      let tb_lines := filtered_traceback err in
      let res := concat tb_lines in
      let res := res ++ NL in
      let res := res ++ tree_context fname code line_numbers in
      mret (Some res)
  end.

End Linter.

(** A registered handler: an external command template or a callable
    strategy taking (fname, rel_fname, code). *)
Inductive Handler :=
  | Template (cmd : str)
  | Callable (f : str -> str -> str -> M (option str)).

(** The state of a [Linter] object. *)
Record Linter := mkLinter {
  encoding : str;
  root : option str;
  languages : gmap (list N) Handler
}.

Section LinterClass.

Variable W : World.

(** [Linter.__init__], lines 18-28. *)
Definition Linter_init (encoding : str) (root : option str) : Linter :=
  mkLinter encoding root
    {[ lit "python" := Template (lit "pre-commit run --files") ]}.

(** [Linter()]: the default arguments of the constructor. *)
Definition Linter_default : Linter := Linter_init (lit "utf-8") None.

(** [Linter.set_linter], lines 30-31. *)
Definition set_linter (self : Linter) (lang : str) (cmd : Handler)
    : Linter :=
  mkLinter (encoding self) (root self) (<[lang := cmd]> (languages self)).

(** [Linter.get_rel_fname], lines 33-37. *)
Definition get_rel_fname (self : Linter) (fname : str) : result str :=
  match root self with
  | Some (c :: r) => relpath W fname (c :: r)
  | _ => Return fname
  end.

(** The text put before the output of the command, lines 49-51. *)
Definition run_cmd_header : str :=
  lit "# Running: {cmd]" ++ NL
  ++ lit "If the output below indicates errors or problems, fix them."
  ++ NL
  ++ lit "But if the command fixed all the issues itself, don't take further action."
  ++ NL ++ NL.

(** [output.decode()]. *)
Definition decode_output (output : bytes) : result str :=
  match decode output with
  | Some s => Return s
  | None => Raise UnicodeDecodeError
  end.

(** [Linter.run_cmd], lines 39-54. *)
Definition run_cmd (self : Linter) (cmd rel_fname : str)
    : M (option str) :=
  let cmd := cmd ++ lit " " ++ rel_fname in
  let cmd := split cmd in
  emit (EvCheckOutput cmd (root self));;
  match check_output W cmd (root self) with
  | SpawnError e => raise e
  | Completed returncode output =>
      if bool_decide (returncode = 0)
      then
        _ ← lift (decode_output output);
        mret None                                   (* zero exit status *)
      else
        errors ← lift (decode_output output);   (* non-zero exit status *)
        let res := run_cmd_header in
        let res := res ++ errors in
        mret (Some res)
  end.

(** [Linter.lint], lines 56-72. *)
Definition lint (self : Linter) (fname : str) : M (option str) :=
  match filename_to_lang W fname with
  | Some (c :: l) =>
      let lang := c :: l in
      rel_fname ← lift (get_rel_fname self fname);
      emit (EvReadText fname (encoding self));;
      code ← lift (read_text W fname (encoding self));
      let cmd := languages self !! lang in
      match cmd with
      | Some (Callable f) => f fname rel_fname code
      | Some (Template (c' :: t)) => run_cmd self (c' :: t) rel_fname
      | _ => basic_lint W rel_fname code
      end
  | _ => mret None
  end.

(** [Linter.py_lint], lines 74-79. *)
Definition py_lint (self : Linter) (fname rel_fname code : str)
    : M (option str) :=
  res ← basic_lint W rel_fname code;
  if truthy_opt res
  then mret res
  else lint_python_compile W fname code.

End LinterClass.

(** ** Vocabulary of the properties *)

(** [subnode m n]: [m] is [n] or below it. *)
Inductive subnode (m : Node) : Node -> Prop :=
  | subnode_self : subnode m m
  | subnode_child n c : c ∈ children n -> subnode m c -> subnode m n.

(** The nodes of a tree, parent before children, children in order. *)
Fixpoint nodes (n : Node) : list Node :=
  n :: flat_map nodes (children n).

(** The test of line 154. *)
Definition is_error (n : Node) : bool :=
  bool_decide (type n = lit "ERROR") || is_missing n.

Definition start_line (n : Node) : Z := fst (start_point n).

(** The start lines of the ERROR and missing nodes of a tree, one entry
    for each such node, parent before children. *)
Definition error_lines (t : Node) : list Z :=
  List.map start_line (List.filter is_error (nodes t)).

(** The number of levels of a tree. *)
Fixpoint height (n : Node) : nat :=
  S (foldr Nat.max 0%nat (List.map height (children n))).

(** The number of lines of a source text. *)
Definition number_of_lines (code : str) : nat := length (splitlines code).

(** A string with a non-space character has at least one word. *)
Definition has_word (s : str) : Prop :=
  exists c, c ∈ s /\ isspace c = false.

(** ** Sample inputs *)

Module Sample.

(** Scenario A of the specification: a definition with a broken
    parameter list. *)
Definition code_bad : str := lit "def f(:" ++ NL ++ lit "    pass" ++ NL.
Definition code_ok : str := lit "def f():" ++ NL ++ lit "    pass" ++ NL.

(** A tree with an ERROR node on line 0 that has a missing token below it. *)
Definition tree_bad : Node :=
  mkNode (lit "module") false (0, 0)
    [ mkNode (lit "ERROR") false (0, 0)
        [ mkNode (lit "def") false (0, 0) [];
          mkNode (lit "identifier") false (0, 4) [];
          mkNode (lit ")") true (0, 6) [] ];
      mkNode (lit "pass_statement") false (1, 4) [] ].

Definition tree_ok : Node :=
  mkNode (lit "module") false (0, 0)
    [ mkNode (lit "function_definition") false (0, 0)
        [ mkNode (lit "identifier") false (0, 4) [];
          mkNode (lit "block") false (1, 4) [] ] ].

Definition parser (code : str) : Node :=
  if bool_decide (code = code_bad) then tree_bad else tree_ok.

(** A world of Python and JavaScript files: [bad.py] holds [code_bad],
    every other file [code_ok]; 990 nested calls are left to the scanner.  The external command ends as
    [po]; the host compiler raises [ce], if given. *)
Definition world (po : proc_outcome) (ce : option pyexc) : World :=
  mkWorld
    (fun fname =>
       if endswith fname (lit ".py") then Some (lit "python")
       else if endswith fname (lit ".js") then Some (lit "javascript")
       else None)
    (fun _ => Return parser)
    (fun fname _ =>
       Return (if endswith fname (lit "bad.py") then code_bad else code_ok))
    (fun fname _ => Return fname)
    (fun _ _ => po)
    (fun _ _ => ce)
    (fun err =>
       [ lit "Traceback (most recent call last):" ++ NL;
         lit "  File linter.py, line 84, in lint_python_compile" ++ NL
         ++ lit "    compile(code, fname, exec)  # USE TRACEBACK BELOW HERE"
         ++ NL;
         lit "  File a.py, line 1" ++ NL;
         exc_class err ++ lit ": invalid syntax" ++ NL ])
    (fun _ => ∅)
    990.

Definition quiet : World := world (Completed 0 []) None.

End Sample.

(** ** The command line *)

(** What [main] leaves behind: the calls that leave the process and the
    strings given to [print], in order. *)
Inductive main_event :=
  | Call (ev : event)
  | Print (text : str).

(** How [main] ends: it returns, [sys.exit(code)] is called, or an
    exception reaches the top. *)
Inductive ending :=
  | Finished
  | SystemExit (code : Z)
  | Uncaught (e : pyexc).

Definition usage : str :=
  lit "Usage: python linter.py <file1> <file2> ...".

Section Main.

Variable W : World.

(** The loop of [main], lines 173-176. *)
Fixpoint main_loop (linter : Linter) (files : list str)
    : list main_event * ending :=
  match files with
  | [] => ([], Finished)
  | file_path :: files' =>
      match lint W linter file_path with
      | (t, Raise e) => (List.map Call t, Uncaught e)
      | (t, Return errors) =>
          let printed :=
            match errors with
            | Some (c :: s) => [Print (c :: s)]
            | _ => []
            end in
          let '(log, e) := main_loop linter files' in
          (List.map Call t ++ printed ++ log, e)
      end
  end.

(** [main], linter.py lines 164-176; [argv] is [sys.argv] and [cwd] is
    the value of [os.getcwd()]. *)
Definition main (argv : list str) (cwd : str) : list main_event * ending :=
  if bool_decide (length argv < 2)%nat
  then ([Print usage], SystemExit 1)
  else
    let linter := Linter_init (lit "utf-8") (Some cwd) in
    main_loop linter (drop 1 argv).

End Main.

(** The calls and the printed strings of a log. *)
Definition calls (log : list main_event) : list event :=
  omap (fun e => match e with Call ev => Some ev | Print _ => None end) log.

Definition printed (log : list main_event) : list str :=
  omap (fun e => match e with Print s => Some s | Call _ => None end) log.

(** The report [main] prints for a result of [lint], if any. *)
Definition shown (r : result (option str)) : option str :=
  match r with
  | Return (Some (c :: s)) => Some (c :: s)
  | _ => None
  end.

(** A linter has no callable strategy registered. *)
Definition commands_only (self : Linter) : Prop :=
  forall lang f, languages self !! lang ≠ Some (Callable f).

(** [s] has no white space. *)
Definition no_space (s : str) : Prop :=
  forall c, c ∈ s -> isspace c = false.

(** [target in line], as a statement. *)
Definition substring (target line : str) : Prop :=
  exists pre post, line = pre ++ target ++ post.

(** ** More sample worlds *)

Module Faulty.

Definition FileNotFoundError : pyexc :=
  mkExc (lit "FileNotFoundError") NoAttr NoAttr.
Definition ValueError : pyexc := mkExc (lit "ValueError") NoAttr NoAttr.

(** The file [gone.py] cannot be read; the others are as in
    [Sample.world]. *)
Definition unreadable (po : proc_outcome) : World :=
  mkWorld
    (filename_to_lang (Sample.world po None))
    (get_parser (Sample.world po None))
    (fun fname enc =>
       if endswith fname (lit "gone.py") then Raise FileNotFoundError
       else read_text (Sample.world po None) fname enc)
    (fun fname _ => Return fname)
    (check_output (Sample.world po None))
    (compile (Sample.world po None))
    (format_exception (Sample.world po None))
    (context_lines (Sample.world po None))
    (recursion_frames (Sample.world po None)).

(** No relative path can be computed. *)
Definition no_relpath : World :=
  mkWorld
    (filename_to_lang Sample.quiet)
    (get_parser Sample.quiet)
    (read_text Sample.quiet)
    (fun _ _ => Raise ValueError)
    (check_output Sample.quiet)
    (compile Sample.quiet)
    (format_exception Sample.quiet)
    (context_lines Sample.quiet)
    (recursion_frames Sample.quiet).

End Faulty.

(** A source nested deeper than the interpreter allows calls. *)
Module Deep.

(** [n] nested nodes on line 0 around [leaf]. *)
Fixpoint nest (n : nat) (leaf : Node) : Node :=
  match n with
  | O => leaf
  | S n' => mkNode (lit "parenthesized_expression") false (0, 0)
              [nest n' leaf]
  end.

(** 1204 levels, none of them an error. *)
Definition tree_ok : Node :=
  nest 1203 (mkNode (lit "identifier") false (0, 0) []).

(** 1204 levels, an ERROR node at the bottom. *)
Definition tree_bad : Node :=
  nest 1203 (mkNode (lit "ERROR") false (0, 0) []).

(** [Sample.quiet] with a parser that gives [tree] for every text. *)
Definition world (tree : Node) : World :=
  mkWorld
    (filename_to_lang Sample.quiet)
    (fun _ => Return (fun _ => tree))
    (read_text Sample.quiet)
    (relpath Sample.quiet)
    (check_output Sample.quiet)
    (compile Sample.quiet)
    (format_exception Sample.quiet)
    (context_lines Sample.quiet)
    (recursion_frames Sample.quiet).

End Deep.
(** * Properties *)

(** ** The monad *)

Lemma bind_ret {A B} (a : A) (k : A -> M B) : (mret a ≫= k) = k a.
Proof.
  unfold mbind, M_bind, bind, mret, M_ret, ret.
  by destruct (k a).
Qed.

Lemma bind_lift_Return {A B} (a : A) (k : A -> M B) :
  (lift (Return a) ≫= k) = k a.
Proof. apply bind_ret. Qed.

Lemma bind_lift_Raise {A B} (e : pyexc) (k : A -> M B) :
  (lift (Raise e) ≫= k) = raise e.
Proof. reflexivity. Qed.

Lemma bind_emit {B} (ev : event) (k : unit -> M B) :
  (emit ev ≫= k) = (ev :: trace (k tt), outcome (k tt)).
Proof.
  unfold mbind, M_bind, bind, emit, trace, outcome.
  by destruct (k tt).
Qed.

(** ** The nodes of a tree *)

(** Induction on a tree with the hypothesis for every child. *)
Lemma Node_ind_children (P : Node -> Prop) :
  (forall ty m sp ch, Forall P ch -> P (mkNode ty m sp ch)) ->
  forall n, P n.
Proof.
  intros step.
  fix IH 1.
  intros [ty m sp ch]. apply step.
  induction ch as [|c ch IHch]; constructor.
  - apply IH.
  - exact IHch.
Qed.

Lemma elem_of_flat_map {A B} (f : A -> list B) (l : list A) (b : B) :
  b ∈ flat_map f l <-> exists a, a ∈ l /\ b ∈ f a.
Proof.
  rewrite list_elem_of_In, in_flat_map.
  split; intros (a & Ha & Hb); exists a.
  - by rewrite !list_elem_of_In.
  - by rewrite <- !list_elem_of_In.
Qed.

Lemma elem_of_nodes (m n : Node) : m ∈ nodes n <-> subnode m n.
Proof.
  split.
  - revert m. induction n as [ty mi sp ch IH] using Node_ind_children.
    intros m. simpl. rewrite elem_of_cons, elem_of_flat_map.
    intros [-> | (c & Hc & Hm)]; [constructor|].
    apply (subnode_child _ _ c); [done|].
    rewrite Forall_forall in IH. by apply IH.
  - induction 1 as [|n c Hc _ IH].
    + destruct m; left.
    + destruct n as [ty mi sp ch]. simpl. right.
      apply elem_of_flat_map. by exists c.
Qed.

Lemma error_lines_unfold (n : Node) :
  error_lines n
  = (if is_error n then [start_line n] else [])
    ++ flat_map error_lines (children n).
Proof.
  destruct n as [ty mi sp ch]. unfold error_lines.
  change (nodes (mkNode ty mi sp ch))
    with (mkNode ty mi sp ch :: flat_map nodes ch).
  cbn [List.filter children].
  assert (List.map start_line (List.filter is_error (flat_map nodes ch))
          = flat_map (fun c => List.map start_line
                                 (List.filter is_error (nodes c))) ch)
    as Hch.
  { induction ch as [|c ch IH]; [done|].
    simpl. by rewrite List.filter_app, List.map_app, IH. }
  destruct (is_error _); simpl; by rewrite Hch.
Qed.

Lemma elem_of_error_lines (t : Node) (l : Z) :
  l ∈ error_lines t
  <-> exists n, subnode n t /\ is_error n = true /\ start_line n = l.
Proof.
  unfold error_lines. rewrite list_elem_of_In, in_map_iff.
  split.
  - intros (n & Hl & Hn). apply filter_In in Hn as [Hn He].
    exists n. by rewrite <- elem_of_nodes, list_elem_of_In.
  - intros (n & Hn & He & Hl). exists n. split; [done|].
    apply filter_In. by rewrite <- list_elem_of_In, elem_of_nodes.
Qed.

Lemma error_lines_nil_iff (t : Node) :
  error_lines t = [] <-> forall n, subnode n t -> is_error n = false.
Proof.
  split.
  - intros Hscan n Hn. destruct (is_error n) eqn:He; [|done].
    assert (start_line n ∈ error_lines t) as Hin
      by (apply elem_of_error_lines; by exists n).
    rewrite Hscan in Hin. by apply elem_of_nil in Hin.
  - intros Hclean.
    destruct (error_lines t) as [|l ls] eqn:E; [done|].
    assert (l ∈ error_lines t) as Hl by (rewrite E; left).
    apply elem_of_error_lines in Hl as (n & Hn & He & _).
    rewrite (Hclean n Hn) in He. done.
Qed.

(** The renderer sees the line numbers only as a set. *)
Lemma tree_context_set (W : World) (fname code : str) (l1 l2 : list Z) :
  (list_to_set l1 : gset Z) = list_to_set l2 ->
  tree_context W fname code l1 = tree_context W fname code l2.
Proof. unfold tree_context. by intros ->. Qed.

(** ** The scanner and the depth of the tree *)

Lemma traverse_tree_S (frames : nat) (n : Node) :
  traverse_tree (S frames) n
  = foldl (fun acc child =>
             errors ← acc;
             more ← traverse_tree frames child;
             mret (errors ++ more))
          (Return (if is_error n then [start_line n] else []))
          (children n).
Proof.
  destruct n as [ty mi sp ch]. unfold is_error, start_line. simpl.
  by destruct (_ || _).
Qed.

(** Once a call below has raised, the loop over the children is left. *)
Lemma traverse_children_raise (frames : nat) (ch : list Node) (e : pyexc) :
  foldl (fun acc child =>
           errors ← acc;
           more ← traverse_tree frames child;
           mret (errors ++ more))
        (Raise e) ch
  = Raise e.
Proof. induction ch as [|c ch IH]; [done|]. simpl. exact IH. Qed.

Lemma traverse_children (frames : nat) (ch : list Node) (acc : list Z) :
  (forall c, traverse_tree frames c
             = if decide (height c <= frames)%nat
               then Return (error_lines c) else Raise RecursionError) ->
  foldl (fun acc child =>
           errors ← acc;
           more ← traverse_tree frames child;
           mret (errors ++ more))
        (Return acc) ch
  = if decide (foldr Nat.max 0%nat (List.map height ch) <= frames)%nat
    then Return (acc ++ flat_map error_lines ch)
    else Raise RecursionError.
Proof.
  intros IH. revert acc. induction ch as [|c ch IHch]; intros acc.
  - simpl. by rewrite app_nil_r.
  - cbn [foldl List.map foldr flat_map].
    change (errors ← Return acc;
            more ← traverse_tree frames c; mret (errors ++ more))
      with (more ← traverse_tree frames c; mret (acc ++ more)).
    rewrite IH. destruct (decide (height c <= frames)%nat) as [Hc|Hc].
    + change (more ← Return (error_lines c); mret (acc ++ more))
        with (Return (A:=list Z) (acc ++ error_lines c)).
      rewrite IHch, <- app_assoc.
      destruct (decide (foldr Nat.max 0%nat (List.map height ch) <= frames)%nat);
        [rewrite decide_True by lia|rewrite decide_False by lia]; done.
    + change (more ← Raise RecursionError; mret (acc ++ more))
        with (Raise (A:=list Z) RecursionError).
      rewrite traverse_children_raise. by rewrite decide_False by lia.
Qed.

(** [traverse_tree] returns the start lines of the ERROR and missing
    nodes when the tree has no more levels than calls are allowed, and
    raises RecursionError otherwise. *)
Lemma traverse_tree_height (frames : nat) (t : Node) :
  traverse_tree frames t
  = if decide (height t <= frames)%nat
    then Return (error_lines t) else Raise RecursionError.
Proof.
  revert t. induction frames as [|frames IH]; intros t.
  - destruct t as [ty mi sp ch]. simpl. done.
  - rewrite traverse_tree_S, (traverse_children frames _ _ IH).
    rewrite (error_lines_unfold t). destruct t as [ty mi sp ch].
    cbn [children height].
    destruct (decide (foldr Nat.max 0%nat (List.map height ch) <= frames)%nat);
      [rewrite decide_True by lia|rewrite decide_False by lia]; done.
Qed.

Lemma traverse_tree_within (frames : nat) (t : Node) :
  (height t <= frames)%nat -> traverse_tree frames t = Return (error_lines t).
Proof. intros H. by rewrite traverse_tree_height, decide_True. Qed.

(** A property of every node of a tree, from the list of its nodes. *)
Lemma Forall_nodes (P : Node -> Prop) (t : Node) :
  Forall P (nodes t) -> forall n, subnode n t -> P n.
Proof.
  rewrite Forall_forall. intros H n Hn. by apply H, elem_of_nodes.
Qed.

(** The nodes of a nest are the leaf and the nesting nodes. *)
Lemma subnode_nest (k : nat) (leaf m : Node) :
  children leaf = [] ->
  subnode m (Deep.nest k leaf) ->
  m = leaf
  \/ (type m = lit "parenthesized_expression" /\ is_missing m = false
      /\ start_point m = (0, 0)).
Proof.
  intros Hleaf. rewrite <- elem_of_nodes.
  induction k as [|k IH].
  - destruct leaf as [ty mi sp ch]. simpl in Hleaf. subst ch. simpl.
    intros [-> | Hm]%elem_of_cons; [by left|by apply elem_of_nil in Hm].
  - cbn [Deep.nest nodes children flat_map]. rewrite app_nil_r.
    intros [-> | Hm]%elem_of_cons; [by right|by apply IH].
Qed.

Lemma subnode_nest_leaf (k : nat) (leaf : Node) :
  subnode leaf (Deep.nest k leaf).
Proof.
  induction k as [|k IH]; [constructor|].
  apply (subnode_child _ _ (Deep.nest k leaf)); [simpl; left|done].
Qed.

Lemma height_nest (k : nat) (leaf : Node) :
  height (Deep.nest k leaf) = (k + height leaf)%nat.
Proof.
  induction k as [|k IH]; [done|].
  cbn [Deep.nest height children List.map foldr]. rewrite IH. lia.
Qed.

(** C1, as amended.  For a tree with no more levels than the interpreter
    still allows nested calls, [traverse_tree] returns the start lines of
    exactly the nodes of the tree (the root or any node below it, also
    below a node that matched) whose type is "ERROR" or whose missing flag
    is set: one entry per such node, in traversal order.  The caller
    [tree_context] turns the list into a set, whose members are those
    start lines, so that duplicates do not matter to the rendering. *)
Theorem traverse_tree_spec (W : World) (frames : nat) (t : Node) :
  (height t <= frames)%nat ->
  exists errors,
    traverse_tree frames t = Return errors
    /\ errors = List.map start_line (List.filter is_error (nodes t))
    /\ (forall n, n ∈ nodes t <-> subnode n t)
    /\ (forall l : Z,
          l ∈ (list_to_set errors : gset Z)
          <-> exists n, subnode n t
                        /\ (type n = lit "ERROR" \/ is_missing n = true)
                        /\ fst (start_point n) = l)
    /\ (forall fname code,
          tree_context W fname code errors
          = tree_context W fname code
              (elements (list_to_set errors : gset Z))).
Proof.
  intros Hheight. exists (error_lines t).
  split; [by apply traverse_tree_within|]. split; [done|].
  split; [intros n; apply elem_of_nodes|].
  split.
  - intros l. rewrite elem_of_list_to_set, elem_of_error_lines.
    unfold is_error, start_line.
    split; intros (n & Hn & He & Hl); exists n; repeat split; try done.
    + apply orb_true_iff in He as [He|He]; [left|by right].
      by apply bool_decide_eq_true in He.
    + apply orb_true_iff. destruct He as [He|He]; [left|by right].
      by apply bool_decide_eq_true.
  - intros fname code. apply tree_context_set.
    apply set_eq. intros l.
    by rewrite !elem_of_list_to_set, elem_of_elements, elem_of_list_to_set.
Qed.

Lemma traverse_tree_spec_witness :
  exists errors,
    traverse_tree (recursion_frames Sample.quiet) Sample.tree_bad
    = Return errors
    /\ errors = [0; 0].
Proof.
  destruct (traverse_tree_spec Sample.quiet (recursion_frames Sample.quiet)
              Sample.tree_bad) as (errors & Hrun & Herrors & _).
  - vm_compute. lia.
  - exists errors. split; [exact Hrun|]. rewrite Herrors. reflexivity.
Defined.

(** C1, as stated, fails: a tree of 1204 levels is a syntax tree, and
    with 990 nested calls left [traverse_tree] raises RecursionError
    instead of returning its lines. *)
Lemma traverse_tree_deep_raises :
  ~ (forall (W : World) (t : Node),
       exists errors,
         traverse_tree (recursion_frames W) t = Return errors
         /\ errors = List.map start_line (List.filter is_error (nodes t))).
Proof.
  intros H. destruct (H Sample.quiet Deep.tree_ok) as (errors & Hrun & _).
  rewrite traverse_tree_height, decide_False in Hrun; [done|].
  unfold Deep.tree_ok. rewrite height_nest. vm_compute. lia.
Qed.

(** C8, as amended.  When the tree of a source text has a malformed
    construct (an ERROR or missing node), every node starts on a line of
    the source and the tree has no more levels than the interpreter still
    allows nested calls, the scanner returns, the set of lines of interest
    it yields is not empty and each of its members is a line index of the
    source. *)
Theorem lines_of_interest_valid (frames : nat) (parser : str -> Node)
    (code : str) :
  (height (parser code) <= frames)%nat ->
  (exists n, subnode n (parser code) /\ is_error n = true) ->
  (forall n, subnode n (parser code) ->
             0 <= start_line n < Z.of_nat (number_of_lines code)) ->
  exists errors,
    traverse_tree frames (parser code) = Return errors
    /\ (list_to_set errors : gset Z) ≠ ∅
    /\ forall l, l ∈ (list_to_set errors : gset Z) ->
                 0 <= l < Z.of_nat (number_of_lines code).
Proof.
  intros Hheight (n & Hn & He) Hin. exists (error_lines (parser code)).
  split; [by apply traverse_tree_within|]. split.
  - intros Hempty.
    assert (start_line n ∈ (list_to_set (error_lines (parser code))
                             : gset Z)) as Hl.
    { rewrite elem_of_list_to_set, elem_of_error_lines. by exists n. }
    rewrite Hempty in Hl. by apply not_elem_of_empty in Hl.
  - intros l Hl.
    rewrite elem_of_list_to_set, elem_of_error_lines in Hl.
    destruct Hl as (m & Hm & _ & <-). by apply Hin.
Qed.

Lemma lines_of_interest_valid_witness :
  exists errors,
    traverse_tree 990 (Sample.parser Sample.code_bad) = Return errors
    /\ (list_to_set errors : gset Z) ≠ ∅
    /\ forall l, l ∈ (list_to_set errors : gset Z) ->
                 0 <= l < Z.of_nat (number_of_lines Sample.code_bad).
Proof.
  apply (lines_of_interest_valid 990 Sample.parser Sample.code_bad).
  - vm_compute. lia.
  - exists (mkNode (lit ")") true (0, 6) []). split; [|reflexivity].
    apply elem_of_nodes. vm_compute. do 4 right. left.
  - apply Forall_nodes. vm_compute. repeat constructor; discriminate.
Defined.

(** C8, as stated, fails: the tree has an ERROR node, every node starts
    on line 0 of a one-line source, and with 1204 levels and 990 nested
    calls left the scanner raises RecursionError and yields no set. *)
Lemma lines_of_interest_deep_raises :
  ~ (forall (W : World) (parser : str -> Node) (code : str),
       (exists n, subnode n (parser code) /\ is_error n = true) ->
       (forall n, subnode n (parser code) ->
                  0 <= start_line n < Z.of_nat (number_of_lines code)) ->
       exists errors,
         traverse_tree (recursion_frames W) (parser code) = Return errors
         /\ (list_to_set errors : gset Z) ≠ ∅
         /\ forall l, l ∈ (list_to_set errors : gset Z) ->
                      0 <= l < Z.of_nat (number_of_lines code)).
Proof.
  intros H.
  destruct (H Sample.quiet (fun _ => Deep.tree_bad) (lit "x"))
    as (errors & Hrun & _).
  - exists (mkNode (lit "ERROR") false (0, 0) []). split; [|reflexivity].
    apply subnode_nest_leaf.
  - intros n Hn.
    destruct (subnode_nest 1203 (mkNode (lit "ERROR") false (0, 0) []) n
                eq_refl Hn) as [-> | (_ & _ & Hsp)].
    + vm_compute. split; [discriminate|reflexivity].
    + unfold start_line. rewrite Hsp. vm_compute.
      split; [discriminate|reflexivity].
  - rewrite traverse_tree_height, decide_False in Hrun; [done|].
    unfold Deep.tree_bad. rewrite height_nest. vm_compute. lia.
Qed.

(** C6, as amended.  When the tree of the source text has no ERROR node
    and no missing node and no more levels than the interpreter still
    allows nested calls, the scanner returns the empty list, and [lint],
    with no handler registered for the language of the file, reads the
    file and returns nothing. *)
Theorem clean_source_lint_nothing (W : World) (self : Linter)
    (fname lang rel_fname code lang' : str) (parser : str -> Node) :
  filename_to_lang W fname = Some lang -> lang ≠ [] ->
  get_rel_fname W self fname = Return rel_fname ->
  read_text W fname (encoding self) = Return code ->
  languages self !! lang = None ->
  filename_to_lang W rel_fname = Some lang' -> lang' ≠ [] ->
  get_parser W lang' = Return parser ->
  encode code ≠ None ->
  (height (parser code) <= recursion_frames W)%nat ->
  (forall n, subnode n (parser code) ->
             type n ≠ lit "ERROR" /\ is_missing n = false) ->
  (exists errors,
     traverse_tree (recursion_frames W) (parser code) = Return errors
     /\ errors = [] /\ (list_to_set errors : gset Z) = ∅)
  /\ basic_lint W rel_fname code = mret None
  /\ lint W self fname = ([EvReadText fname (encoding self)], Return None).
Proof.
  intros Hlang Hne Hrel Hread Hreg Hlang' Hne' Hparser Henc Hheight Hclean.
  assert (traverse_tree (recursion_frames W) (parser code) = Return [])
    as Hscan.
  { rewrite traverse_tree_within by done. f_equal.
    apply error_lines_nil_iff. intros n Hn.
    destruct (Hclean n Hn) as [Hty Hmi]. unfold is_error.
    rewrite Hmi, orb_false_r. by apply bool_decide_eq_false. }
  assert (basic_lint W rel_fname code = mret None) as Hbasic.
  { unfold basic_lint. rewrite Hlang'.
    destruct lang' as [|c l]; [done|].
    rewrite Hparser, bind_lift_Return. unfold bytes_utf8.
    destruct (encode code) as [b|]; [|done].
    rewrite bind_lift_Return, Hscan, bind_lift_Return. done. }
  split; [by exists []|]. split; [done|].
  unfold lint. rewrite Hlang. destruct lang as [|c l]; [done|].
  rewrite Hrel, bind_lift_Return, bind_emit.
  rewrite Hread, bind_lift_Return. rewrite Hreg, Hbasic. done.
Qed.

Lemma clean_source_lint_nothing_witness :
  (exists errors,
     traverse_tree (recursion_frames Sample.quiet)
       (Sample.parser Sample.code_ok) = Return errors
     /\ errors = [] /\ (list_to_set errors : gset Z) = ∅)
  /\ basic_lint Sample.quiet (lit "a.js") Sample.code_ok = mret None
  /\ lint Sample.quiet Linter_default (lit "a.js")
     = ([EvReadText (lit "a.js") (lit "utf-8")], Return None).
Proof.
  apply (clean_source_lint_nothing Sample.quiet Linter_default
           (lit "a.js") (lit "javascript") (lit "a.js") Sample.code_ok
           (lit "javascript") Sample.parser);
    try reflexivity; try discriminate.
  - vm_compute. lia.
  - apply Forall_nodes. vm_compute. repeat constructor; discriminate.
Defined.

(** C6, as stated, fails: the source is in a supported language, its
    tree has no ERROR node and no missing node, no handler is registered,
    and with 1204 levels and 990 nested calls left [lint] raises
    RecursionError instead of returning nothing. *)
Lemma clean_source_deep_raises :
  ~ (forall (W : World) (self : Linter)
            (fname lang rel_fname code lang' : str) (parser : str -> Node),
       filename_to_lang W fname = Some lang -> lang ≠ [] ->
       get_rel_fname W self fname = Return rel_fname ->
       read_text W fname (encoding self) = Return code ->
       languages self !! lang = None ->
       filename_to_lang W rel_fname = Some lang' -> lang' ≠ [] ->
       get_parser W lang' = Return parser ->
       encode code ≠ None ->
       (forall n, subnode n (parser code) ->
                  type n ≠ lit "ERROR" /\ is_missing n = false) ->
       outcome (lint W self fname) = Return None).
Proof.
  intros H.
  specialize (H (Deep.world Deep.tree_ok) Linter_default
                (lit "a.js") (lit "javascript") (lit "a.js") Sample.code_ok
                (lit "javascript") (fun _ => Deep.tree_ok)).
  assert (outcome (lint (Deep.world Deep.tree_ok) Linter_default (lit "a.js"))
          = Raise RecursionError) as Hrun.
  { unfold lint. simpl filename_to_lang.
    change (filename_to_lang (Deep.world Deep.tree_ok) (lit "a.js"))
      with (Some (lit "javascript")).
    cbv beta iota.
    change (lit "javascript") with (106%N :: lit "avascript").
    cbv beta iota.
    change (get_rel_fname (Deep.world Deep.tree_ok) Linter_default
              (lit "a.js")) with (Return (A:=list N) (lit "a.js")).
    rewrite bind_lift_Return, bind_emit. unfold outcome at 1. cbn [snd].
    change (read_text (Deep.world Deep.tree_ok) (lit "a.js")
              (encoding Linter_default)) with (Return (A:=list N) Sample.code_ok).
    rewrite bind_lift_Return.
    change (languages Linter_default !! (106%N :: lit "avascript"))
      with (@None Handler).
    cbv beta iota. unfold basic_lint.
    change (filename_to_lang (Deep.world Deep.tree_ok) (lit "a.js"))
      with (Some (106%N :: lit "avascript")).
    cbv beta iota.
    change (get_parser (Deep.world Deep.tree_ok) (106%N :: lit "avascript"))
      with (Return (fun _ : list N => Deep.tree_ok)).
    rewrite bind_lift_Return.
    change (bytes_utf8 Sample.code_ok)
      with (Return (A:=list Byte.byte)
              (default [] (encode Sample.code_ok))).
    rewrite bind_lift_Return.
    rewrite traverse_tree_height, decide_False; [done|].
    unfold Deep.tree_ok. rewrite height_nest. vm_compute. lia. }
  rewrite Hrun in H. discriminate H; try reflexivity; try discriminate.
  intros n Hn.
  destruct (subnode_nest 1203 (mkNode (lit "identifier") false (0, 0) []) n
              eq_refl Hn) as [-> | (Hty & Hmi & _)].
  - split; [discriminate|reflexivity].
  - split; [rewrite Hty; discriminate|done].
Qed.

(** ** The external command *)

(** What [run_cmd] does once the process has run and exited. *)
Lemma run_cmd_completed (W : World) (self : Linter) (cmd rel_fname : str)
    (returncode : Z) (output : bytes) :
  check_output W (split (cmd ++ lit " " ++ rel_fname)) (root self)
  = Completed returncode output ->
  run_cmd W self cmd rel_fname
  = ([EvCheckOutput (split (cmd ++ lit " " ++ rel_fname)) (root self)],
     match decode output with
     | None => Raise UnicodeDecodeError
     | Some errors =>
         if bool_decide (returncode = 0) then Return None
         else Return (Some (run_cmd_header ++ errors))
     end).
Proof.
  intros Hrun. unfold run_cmd. rewrite bind_emit, Hrun.
  unfold decode_output.
  destruct (decode output) as [errors|]; by case_bool_decide.
Qed.

(** What [lint] does up to the lookup of the handler. *)
Lemma lint_dispatch (W : World) (self : Linter)
    (fname lang rel_fname code : str) :
  filename_to_lang W fname = Some lang -> lang ≠ [] ->
  get_rel_fname W self fname = Return rel_fname ->
  read_text W fname (encoding self) = Return code ->
  lint W self fname
  = (emit (EvReadText fname (encoding self));;
     match languages self !! lang with
     | Some (Callable f) => f fname rel_fname code
     | Some (Template (c :: t)) => run_cmd W self (c :: t) rel_fname
     | _ => basic_lint W rel_fname code
     end).
Proof.
  intros Hlang Hne Hrel Hread. unfold lint. rewrite Hlang.
  destruct lang as [|c l]; [done|].
  rewrite Hrel, bind_lift_Return.
  by rewrite Hread, !bind_emit, bind_lift_Return.
Qed.

(** With a non-empty command template registered for the language of the
    file, [lint] reads the file and runs the command; when the captured
    output is valid UTF-8, exit status zero makes it return nothing and
    any other exit status makes it return the decoded output after the
    text of lines 49-51, whose first line starts with a hash sign, with no
    marker glyph added. *)
Lemma lint_template_exit_status (W : World) (self : Linter)
    (fname lang rel_fname code cmd : str) (returncode : Z)
    (output : bytes) (errors : str) :
  filename_to_lang W fname = Some lang -> lang ≠ [] ->
  get_rel_fname W self fname = Return rel_fname ->
  read_text W fname (encoding self) = Return code ->
  languages self !! lang = Some (Template cmd) -> cmd ≠ [] ->
  check_output W (split (cmd ++ lit " " ++ rel_fname)) (root self)
  = Completed returncode output ->
  decode output = Some errors ->
  lint W self fname
  = ([EvReadText fname (encoding self);
      EvCheckOutput (split (cmd ++ lit " " ++ rel_fname)) (root self)],
     Return (if bool_decide (returncode = 0) then None
             else Some (run_cmd_header ++ errors)))
  /\ startswith run_cmd_header (lit "# ") = true
  /\ FULL_BLOCK ∉ run_cmd_header.
Proof.
  intros Hlang Hne Hrel Hread Hreg Hcmd Hrun Hdec.
  split; [|split; [reflexivity|]].
  - rewrite (lint_dispatch W self fname lang rel_fname code) by done.
    rewrite Hreg. destruct cmd as [|c t]; [done|].
    rewrite bind_emit.
    rewrite (run_cmd_completed W self (c :: t) rel_fname returncode output)
      by done.
    rewrite Hdec. by case_bool_decide.
  - vm_compute. intros H.
    repeat (apply elem_of_cons in H as [H|H]; [discriminate H|]).
    by apply elem_of_nil in H.
Qed.

Lemma lint_template_exit_status_witness :
  lint (Sample.world (Completed 1 [Byte.x6f; Byte.x6f; Byte.x70; Byte.x73]) None)
       Linter_default (lit "a.py")
  = ([EvReadText (lit "a.py") (lit "utf-8");
      EvCheckOutput
        [lit "pre-commit"; lit "run"; lit "--files"; lit "a.py"] None],
     Return (Some (run_cmd_header ++ lit "oops")))
  /\ startswith run_cmd_header (lit "# ") = true
  /\ FULL_BLOCK ∉ run_cmd_header.
Proof.
  apply (lint_template_exit_status
           (Sample.world (Completed 1 [Byte.x6f; Byte.x6f; Byte.x70; Byte.x73]) None)
           Linter_default (lit "a.py") (lit "python") (lit "a.py")
           Sample.code_ok (lit "pre-commit run --files") 1
           [Byte.x6f; Byte.x6f; Byte.x70; Byte.x73] (lit "oops"));
    try reflexivity; discriminate.
Defined.

(** C2 fails on the code.  The command exits with status zero after
    writing the byte 0xFF; [run_cmd] decodes the output it is about to
    throw away, and [lint] raises UnicodeDecodeError where line 45 means to
    return nothing. *)
Theorem lint_zero_exit_raises :
  lint (Sample.world (Completed 0 [Byte.xff]) None) Linter_default
       (lit "a.py")
  = ([EvReadText (lit "a.py") (lit "utf-8");
      EvCheckOutput
        [lit "pre-commit"; lit "run"; lit "--files"; lit "a.py"] None],
     Raise UnicodeDecodeError).
Proof. reflexivity. Qed.

(** ** The argument vector *)

Lemma split_from_app_space (cur a b : str) (ws : N) :
  isspace ws = true ->
  split_from cur (a ++ ws :: b) = split_from cur a ++ split_from [] b.
Proof.
  intros Hws. revert cur.
  induction a as [|c a IH]; intros cur; simpl.
  - rewrite Hws. by destruct cur.
  - destruct (isspace c), cur; by rewrite ?IH.
Qed.

Lemma split_app_space (a b : str) :
  split (a ++ lit " " ++ b) = split a ++ split b.
Proof. by apply (split_from_app_space [] a b 32%N). Qed.

Lemma split_from_has_word (cur s : str) :
  cur ≠ [] \/ has_word s -> (1 <= length (split_from cur s))%nat.
Proof.
  revert cur. induction s as [|c s IH]; intros cur H; simpl.
  - destruct H as [H | (c & Hc & _)].
    + destruct cur; [done|]. simpl. lia.
    + by apply elem_of_nil in Hc.
  - destruct (isspace c) eqn:Ec.
    + destruct cur; [|simpl; lia].
      apply IH. right. destruct H as [H | (d & Hd & Hsp)]; [done|].
      apply elem_of_cons in Hd as [-> | Hd]; [congruence|].
      by exists d.
    + apply IH. by left.
Qed.

Lemma run_cmd_trace (W : World) (self : Linter) (cmd rel_fname : str) :
  trace (run_cmd W self cmd rel_fname)
  = [EvCheckOutput (split (cmd ++ lit " " ++ rel_fname)) (root self)].
Proof.
  unfold run_cmd. rewrite bind_emit. unfold trace at 1. simpl. f_equal.
  destruct (check_output W _ _) as [rc out|e]; [|done].
  unfold decode_output.
  case_bool_decide; by destruct (decode out).
Qed.

(** C10, as amended.  [run_cmd] makes one call to the subprocess, whose
    argument vector is the template, a space and the relative file name,
    joined and split at white space; these are the words of the template
    followed by the words of the file name.  A file name with a space
    that has a non-space character somewhere before it and somewhere
    after it gives two or more arguments. *)
Theorem run_cmd_argv (W : World) (self : Linter) (cmd rel_fname : str) :
  trace (run_cmd W self cmd rel_fname)
  = [EvCheckOutput (split (cmd ++ lit " " ++ rel_fname)) (root self)]
  /\ split (cmd ++ lit " " ++ rel_fname) = split cmd ++ split rel_fname
  /\ forall u v : str,
       rel_fname = u ++ lit " " ++ v -> has_word u -> has_word v ->
       (2 <= length (split rel_fname))%nat.
Proof.
  split; [apply run_cmd_trace|]. split; [apply split_app_space|].
  intros u v -> Hu Hv. rewrite split_app_space, length_app.
  pose proof (split_from_has_word [] u (or_intror Hu)).
  pose proof (split_from_has_word [] v (or_intror Hv)).
  unfold split. lia.
Qed.

Lemma run_cmd_argv_witness :
  trace (run_cmd Sample.quiet Linter_default (lit "pre-commit run --files")
           (lit "my file.py"))
  = [EvCheckOutput
       [lit "pre-commit"; lit "run"; lit "--files"; lit "my"; lit "file.py"]
       None]
  /\ (2 <= length (split (lit "my file.py")))%nat.
Proof.
  pose proof (run_cmd_argv Sample.quiet Linter_default
                (lit "pre-commit run --files") (lit "my file.py"))
    as (Htrace & _ & Hwords).
  split; [exact Htrace|].
  apply (Hwords (lit "my") (lit "file.py")); [reflexivity| |].
  - exists 109%N. split; [left|reflexivity].
  - exists 102%N. split; [left|reflexivity].
Defined.

(** C10, as stated, fails: the file name " a.py" contains a space and is
    passed as the single argument "a.py". *)
Lemma run_cmd_leading_space_one_argument :
  ~ (forall (W : World) (self : Linter) (cmd rel_fname : str),
       32%N ∈ rel_fname ->
       exists argv,
         trace (run_cmd W self cmd rel_fname)
         = [EvCheckOutput argv (root self)]
         /\ (length (split cmd) + 2 <= length argv)%nat).
Proof.
  intros H.
  destruct (H Sample.quiet Linter_default (lit "pre-commit run --files")
              (lit " a.py")) as (argv & Htrace & Hlen); [left|].
  rewrite run_cmd_trace in Htrace.
  injection Htrace as <-. vm_compute in Hlen. lia.
Qed.

(** ** Which calls are made *)

Lemma trace_bind {A B} (m : M A) (k : A -> M B) :
  trace (m ≫= k)
  = trace m ++ match outcome m with
               | Return a => trace (k a)
               | Raise _ => []
               end.
Proof.
  destruct m as [t [a|e]]; unfold mbind, M_bind, bind, trace, outcome; simpl.
  - by destruct (k a).
  - by rewrite app_nil_r.
Qed.

Lemma outcome_bind {A B} (m : M A) (k : A -> M B) :
  outcome (m ≫= k)
  = match outcome m with
    | Return a => outcome (k a)
    | Raise e => Raise e
    end.
Proof.
  destruct m as [t [a|e]]; unfold mbind, M_bind, bind, trace, outcome; simpl.
  - by destruct (k a).
  - done.
Qed.

Lemma M_eq {A} (m : M A) : m = (trace m, outcome m).
Proof. by destruct m. Qed.

(** [basic_lint] makes no call that leaves the process. *)
Lemma basic_lint_trace (W : World) (fname code : str) :
  trace (basic_lint W fname code) = [].
Proof.
  unfold basic_lint.
  destruct (filename_to_lang W fname) as [[|c l]|]; try done.
  destruct (get_parser W (c :: l)) as [parser|e]; [|done].
  rewrite bind_lift_Return.
  destruct (bytes_utf8 code) as [b|e]; [|done].
  rewrite bind_lift_Return.
  destruct (traverse_tree _ _) as [errors|e]; [|done].
  rewrite bind_lift_Return. by destruct errors.
Qed.

(** The report of the renderer is never the empty string. *)
Lemma tree_context_truthy (W : World) (fname code : str)
    (line_nums : list Z) :
  truthy (tree_context W fname code line_nums) = true.
Proof. reflexivity. Qed.

(** [basic_lint] ends in one of three ways. *)
Lemma basic_lint_outcome (W : World) (fname code : str) :
  outcome (basic_lint W fname code) = Return None
  \/ (exists res, outcome (basic_lint W fname code) = Return (Some res)
                  /\ truthy res = true)
  \/ (exists e, outcome (basic_lint W fname code) = Raise e).
Proof.
  unfold basic_lint.
  destruct (filename_to_lang W fname) as [[|c l]|]; try by left.
  destruct (get_parser W (c :: l)) as [parser|e];
    [|right; right; by exists e].
  rewrite bind_lift_Return.
  destruct (bytes_utf8 code) as [b|e]; [|right; right; by exists e].
  rewrite bind_lift_Return.
  destruct (traverse_tree _ _) as [errors|e]; [|right; right; by exists e].
  rewrite bind_lift_Return.
  destruct errors eqn:E; [by left|].
  right; left. eexists. split; [reflexivity|apply tree_context_truthy].
Qed.

Lemma lint_python_compile_trace (W : World) (fname code : str) :
  trace (lint_python_compile W fname code) = [EvCompile code fname].
Proof.
  unfold lint_python_compile. rewrite bind_emit. unfold trace at 1. simpl.
  f_equal. destruct (compile W code fname) as [err|]; [|done].
  by destruct (line_numbers_of err).
Qed.

Lemma basic_lint_cases (W : World) (fname code : str) :
  basic_lint W fname code = mret None
  \/ (exists res, basic_lint W fname code = mret (Some res)
                  /\ truthy res = true)
  \/ (exists e, basic_lint W fname code = raise e).
Proof.
  rewrite (M_eq (basic_lint W fname code)), basic_lint_trace.
  destruct (basic_lint_outcome W fname code)
    as [-> | [(r & -> & Hr) | (e & ->)]]; eauto.
Qed.

(** C4. [py_lint] runs [basic_lint] first.  A report from it is not
    empty and is returned as it is, with the host compiler not called; a
    fault of it is passed on, the host compiler not called either; and
    when it returns nothing [py_lint] is [lint_python_compile], which
    calls the host compiler. *)
Theorem py_lint_basic_first (W : World) (self : Linter)
    (fname rel_fname code : str) :
  (forall res, basic_lint W rel_fname code = mret (Some res) ->
     res ≠ []
     /\ py_lint W self fname rel_fname code = mret (Some res)
     /\ trace (py_lint W self fname rel_fname code) = [])
  /\ (forall e, basic_lint W rel_fname code = raise e ->
        py_lint W self fname rel_fname code = raise e)
  /\ (basic_lint W rel_fname code = mret None ->
        py_lint W self fname rel_fname code
        = lint_python_compile W fname code
        /\ trace (py_lint W self fname rel_fname code)
           = [EvCompile code fname])
  /\ (basic_lint W rel_fname code = mret None
      \/ (exists res, basic_lint W rel_fname code = mret (Some res))
      \/ (exists e, basic_lint W rel_fname code = raise e)).
Proof.
  unfold py_lint.
  destruct (basic_lint_cases W rel_fname code)
    as [Hb | [(r & Hb & Hr) | (e & Hb)]]; rewrite Hb.
  - split; [intros res [=]|]. split; [intros e' [=]|].
    split; [|by left]. intros _. rewrite bind_ret. simpl.
    split; [done|apply lint_python_compile_trace].
  - split; [|split; [intros e' [=]|split; [intros [=]|right; left; eauto]]].
    intros res [= <-]. rewrite bind_ret. simpl. rewrite Hr.
    split; [|done]. by destruct r.
  - split; [intros res [=]|]. split; [|split; [intros [=]|right; right; eauto]].
    by intros e' [= <-].
Qed.

Lemma py_lint_basic_first_witness :
  py_lint Sample.quiet Linter_default (lit "bad.py") (lit "bad.py")
    Sample.code_bad
  = mret (Some (tree_context Sample.quiet (lit "bad.py") Sample.code_bad
                  [0; 0]))
  /\ py_lint Sample.quiet Linter_default (lit "a.py") (lit "a.py")
       Sample.code_ok
     = lint_python_compile Sample.quiet (lit "a.py") Sample.code_ok.
Proof.
  split.
  - apply (py_lint_basic_first Sample.quiet Linter_default (lit "bad.py")
             (lit "bad.py") Sample.code_bad).
    reflexivity.
  - apply (py_lint_basic_first Sample.quiet Linter_default (lit "a.py")
             (lit "a.py") Sample.code_ok).
    reflexivity.
Defined.

(** ** The default registry *)

Lemma lint_default_no_compile (W : World) (fname code' fname' : str) :
  EvCompile code' fname' ∉ trace (lint W Linter_default fname).
Proof.
  unfold lint.
  destruct (filename_to_lang W fname) as [[|c l]|];
    try (by apply not_elem_of_nil).
  change (get_rel_fname W Linter_default fname) with (Return (A:=list N) fname).
  rewrite bind_lift_Return, !trace_bind.
  cbn [emit lift trace outcome fst snd app].
  apply not_elem_of_cons. split; [done|].
  destruct (read_text W fname (encoding Linter_default)) as [code|e];
    [|by apply not_elem_of_nil].
  destruct (decide (c :: l = lit "python")) as [->|Hne].
  - change (languages Linter_default !! lit "python")
      with (Some (Template (lit "pre-commit run --files"))).
    change (lit "pre-commit run --files")
      with (112%N :: lit "re-commit run --files").
    cbv beta iota. rewrite run_cmd_trace.
    apply not_elem_of_cons. split; [done|apply not_elem_of_nil].
  - assert (languages Linter_default !! (c :: l) = None) as ->.
    { unfold Linter_default, Linter_init. simpl.
      by apply lookup_singleton_ne. }
    rewrite basic_lint_trace. apply not_elem_of_nil.
Qed.

(** C9. The registry of [Linter()] has exactly one entry: "python" maps
    to the command template "pre-commit run --files".  With it, [lint] of
    a Python file reads the file and runs that command on it, and no call
    of [lint] reaches the host compiler.  After [py_lint] is installed
    for "python" with [set_linter], [lint] of a Python file is [py_lint]
    on the contents of the file. *)
Theorem default_registry (W : World) :
  languages Linter_default
  = {[ lit "python" := Template (lit "pre-commit run --files") ]}
  /\ size (languages Linter_default) = 1%nat
  /\ (forall lang h,
        languages Linter_default !! lang = Some h
        <-> lang = lit "python"
            /\ h = Template (lit "pre-commit run --files"))
  /\ (forall fname code,
        filename_to_lang W fname = Some (lit "python") ->
        read_text W fname (lit "utf-8") = Return code ->
        lint W Linter_default fname
        = (emit (EvReadText fname (lit "utf-8"));;
           run_cmd W Linter_default (lit "pre-commit run --files") fname))
  /\ (forall fname code' fname',
        EvCompile code' fname' ∉ trace (lint W Linter_default fname))
  /\ (forall fname code,
        filename_to_lang W fname = Some (lit "python") ->
        read_text W fname (lit "utf-8") = Return code ->
        let self :=
          set_linter Linter_default (lit "python")
            (Callable (py_lint W Linter_default)) in
        lint W self fname
        = (emit (EvReadText fname (lit "utf-8"));;
           py_lint W Linter_default fname fname code)).
Proof.
  split; [reflexivity|]. split; [apply map_size_singleton|].
  split; [|split; [|split; [apply lint_default_no_compile|]]].
  - intros lang h. unfold Linter_default, Linter_init. simpl.
    rewrite lookup_singleton_Some. split; intros [<- <-]; done.
  - intros fname code Hlang Hread.
    by rewrite (lint_dispatch W Linter_default fname (lit "python") fname code).
  - intros fname code Hlang Hread self.
    by rewrite (lint_dispatch W self fname (lit "python") fname code).
Qed.

Lemma default_registry_witness :
  lint Sample.quiet Linter_default (lit "a.py")
  = (emit (EvReadText (lit "a.py") (lit "utf-8"));;
     run_cmd Sample.quiet Linter_default (lit "pre-commit run --files")
       (lit "a.py")).
Proof.
  destruct (default_registry Sample.quiet) as (_ & _ & _ & H & _).
  apply (H (lit "a.py") Sample.code_ok); reflexivity.
Defined.

(** ** The compile fallback *)

Lemma elem_of_range (a b k : Z) : k ∈ range a b <-> a <= k < b.
Proof.
  unfold range. rewrite list_elem_of_In, in_map_iff. split.
  - intros (i & <- & Hi). apply in_seq in Hi. lia.
  - intros Hk. exists (Z.to_nat (k - a)). split; [lia|].
    apply in_seq. lia.
Qed.

Lemma range_one (a : Z) : range (a - 1) a = [a - 1].
Proof.
  unfold range. replace (a - (a - 1)) with 1 by lia.
  simpl. f_equal. lia.
Qed.

(** What [lint_python_compile] does, case by case. *)
Lemma lint_python_compile_cases (W : World) (fname code : str) :
  lint_python_compile W fname code
  = ([EvCompile code fname],
     match compile W code fname with
     | None => Return None
     | Some err =>
         match line_numbers_of err with
         | Raise e => Raise e
         | Return line_numbers =>
             Return (Some (concat (filtered_traceback W err) ++ NL
                           ++ tree_context W fname code line_numbers))
         end
     end).
Proof.
  unfold lint_python_compile. rewrite bind_emit.
  destruct (compile W code fname) as [err|]; [|done].
  destruct (line_numbers_of err) as [ls|e]; [|done].
  rewrite bind_lift_Return. unfold trace, outcome. simpl.
  by rewrite <- app_assoc.
Qed.

(** C7. When the host compiler fails with an error that reports the
    start line [lineno] and the end line [end_lineno] (both one-based),
    the line numbers handed to the renderer are the zero-based indices
    from [lineno - 1] to [end_lineno - 1], both included; for a
    single-line error this is the one index [lineno - 1]. *)
Theorem compile_line_range (W : World) (fname code : str) (err : pyexc)
    (lineno end_lineno : Z) :
  compile W code fname = Some err ->
  exc_lineno err = AttrInt lineno ->
  exc_end_lineno err = AttrInt end_lineno ->
  line_numbers_of err = Return (range (lineno - 1) end_lineno)
  /\ (forall k, k ∈ range (lineno - 1) end_lineno
                <-> lineno - 1 <= k <= end_lineno - 1)
  /\ (lineno = end_lineno -> range (lineno - 1) end_lineno = [lineno - 1])
  /\ lint_python_compile W fname code
     = ([EvCompile code fname],
        Return (Some (concat (filtered_traceback W err) ++ NL
                      ++ tree_context W fname code
                           (range (lineno - 1) end_lineno)))).
Proof.
  intros Hcompile Hstart Hend.
  assert (line_numbers_of err = Return (range (lineno - 1) end_lineno))
    as Hnums by (unfold line_numbers_of; by rewrite Hstart, Hend).
  split; [done|]. split; [|split].
  - intros k. rewrite elem_of_range. lia.
  - intros <-. apply range_one.
  - by rewrite lint_python_compile_cases, Hcompile, Hnums.
Qed.

Lemma compile_line_range_witness :
  line_numbers_of (mkExc (lit "SyntaxError") (AttrInt 1) (AttrInt 2))
  = Return [0; 1]
  /\ (forall k, k ∈ [0; 1] <-> 1 - 1 <= k <= 2 - 1).
Proof.
  destruct (compile_line_range
              (Sample.world (Completed 0 [])
                 (Some (mkExc (lit "SyntaxError") (AttrInt 1) (AttrInt 2))))
              (lit "bad.py") Sample.code_bad
              (mkExc (lit "SyntaxError") (AttrInt 1) (AttrInt 2)) 1 2)
    as (H1 & H2 & _); try reflexivity.
  split; [exact H1|exact H2].
Defined.

(** C3 fails on the code.  The host compiler rejects a source text that
    holds a NUL character with a ValueError, which has no [lineno]; the
    handler then raises AttributeError, and [lint_python_compile] passes
    it to its caller instead of returning a report. *)
Theorem lint_python_compile_propagates :
  lint_python_compile
    (Sample.world (Completed 0 [])
       (Some (mkExc (lit "ValueError") NoAttr NoAttr)))
    (lit "a.py") [0%N]
  = ([EvCompile [0%N] (lit "a.py")], Raise AttributeError).
Proof. reflexivity. Qed.

(** ** The context renderer *)

#[local] Set Warnings "-clear-no-such-hyp".

Lemma elem_of_window_from (tc : TreeContext) (i : Z) (ls : list str)
    (r : row) :
  r ∈ TC.window_from tc i ls
  <-> exists (k : nat) (text : str),
        ls !! k = Some text
        /\ i + Z.of_nat k ∈ show_lines tc
        /\ r = mkRow (i + Z.of_nat k) text
                 (mark_lois tc
                  && bool_decide (i + Z.of_nat k ∈ lines_of_interest tc)).
Proof.
  revert i. induction ls as [|line ls IH]; intros i; simpl.
  - split; [by intros ?%elem_of_nil|]. by intros (k & text & ? & _).
  - assert (forall k : nat, i + 1 + Z.of_nat k = i + Z.of_nat (S k)) as Hk
      by (intros; lia).
    case_bool_decide as Hshow; rewrite ?elem_of_cons, IH; split.
    + intros [-> | (k & text & Hl & Hs & ->)].
      * exists 0%nat, line. by rewrite Z.add_0_r.
      * exists (S k), text. by rewrite <- Hk.
    + intros ([|k] & text & Hl & Hs & ->).
      * left. simpl in Hl. injection Hl as ->. by rewrite Z.add_0_r.
      * right. exists k, text. by rewrite Hk.
    + intros (k & text & Hl & Hs & ->).
      exists (S k), text. by rewrite <- Hk.
    + intros ([|k] & text & Hl & Hs & ->).
      * rewrite Z.add_0_r in Hs. done.
      * exists k, text. by rewrite Hk.
Qed.

(** C5. For a non-empty list of line indices of the source, the output
    of [tree_context] is the instruction line, in the singular when the
    set of lines has one member and in the plural when it has more, an
    empty line, the file name it was given followed by a colon, and the
    excerpt.  The excerpt renders the rows of the context window one per
    line, each with its line number and a glyph: every line of interest
    has a row, the rows of the lines of interest and only those carry
    the full block, the others the light vertical bar. *)
Theorem tree_context_shape (W : World) (fname code : str)
    (line_nums : list Z) :
  line_nums ≠ [] ->
  (forall l, l ∈ line_nums -> 0 <= l < Z.of_nat (number_of_lines code)) ->
  let loi : gset Z := list_to_set line_nums in
  let context :=
    TC.add_context (context_lines W)
      (TC.add_lines_of_interest loi
         (TC.new fname code false true false false 0 true 5 false)) in
  let excerpt :=
    concat (List.map (TC.render_row context) (TC.window context)) in
  (size loi = 1%nat \/ (1 < size loi)%nat)
  /\ (size loi = 1%nat ->
      tree_context W fname code line_nums
      = lit "# Fix the error, see relevant line below marked with "
        ++ [FULL_BLOCK] ++ lit "." ++ NL ++ NL
        ++ fname ++ lit ":" ++ NL ++ excerpt)
  /\ ((1 < size loi)%nat ->
      tree_context W fname code line_nums
      = lit "# Fix the errors, see relevant lines below marked with "
        ++ [FULL_BLOCK] ++ lit "." ++ NL ++ NL
        ++ fname ++ lit ":" ++ NL ++ excerpt)
  /\ (forall l, l ∈ loi ->
        exists text, splitlines code !! Z.to_nat l = Some text
                     /\ mkRow l text true ∈ TC.window context)
  /\ (forall r, r ∈ TC.window context ->
        (row_marked r = true <-> row_lineno r ∈ loi)
        /\ TC.render_row context r
           = rjust 3 (decimal (row_lineno r + 1))
             ++ [if row_marked r then FULL_BLOCK else LIGHT_VERTICAL]
             ++ row_text r ++ NL)
  /\ FULL_BLOCK ≠ LIGHT_VERTICAL.
Proof.
  intros Hne Hvalid loi context excerpt.
  assert (size loi ≠ 0%nat) as Hsize.
  { intros H0. apply size_empty_inv in H0.
    destruct line_nums as [|l ls]; [done|].
    assert (l ∈ loi) as Hl by (subst loi; set_solver).
    rewrite (leibniz_equiv _ _ H0) in Hl. by apply not_elem_of_empty in Hl. }
  assert (forall plural : bool,
    bool_decide (1 < size loi)%nat = plural ->
    tree_context W fname code line_nums
    = lit "# Fix the error" ++ (if plural then lit "s" else [])
      ++ lit ", see relevant line" ++ (if plural then lit "s" else [])
      ++ lit " below marked with " ++ [FULL_BLOCK] ++ lit "." ++ NL ++ NL
      ++ fname ++ lit ":" ++ NL ++ excerpt) as Hout.
  { intros plural <-. unfold tree_context. fold loi.
    unfold TC.format. fold context. fold excerpt.
    by rewrite <- !app_assoc. }
  assert (lines_of_interest context = loi) as Hloi.
  { subst context. simpl. set_solver. }
  assert (show_lines context = loi ∪ context_lines W
            (TC.add_lines_of_interest loi
               (TC.new fname code false true false false 0 true 5 false)))
    as Hshow.
  { subst context. simpl. f_equal. set_solver. }
  split; [lia|]. split; [|split; [|split; [|split; [|done]]]].
  - intros H1. rewrite (Hout false); [done|].
    apply bool_decide_eq_false. lia.
  - intros H1. rewrite (Hout true); [done|].
    by apply bool_decide_eq_true.
  - intros l Hl.
    assert (l ∈ line_nums) as Hin by (subst loi; set_solver).
    specialize (Hvalid l Hin). unfold number_of_lines in Hvalid.
    destruct (lookup_lt_is_Some_2 (splitlines code) (Z.to_nat l))
      as [text Htext]; [lia|].
    exists text. split; [done|].
    apply elem_of_window_from. exists (Z.to_nat l), text.
    replace (0 + Z.of_nat (Z.to_nat l)) with l by lia.
    split; [done|]. split; [rewrite Hshow; set_solver|].
    rewrite Hloi. by rewrite bool_decide_eq_true_2.
  - intros r Hr. apply elem_of_window_from in Hr
      as (k & text & Hl & Hs & ->).
    rewrite Hloi. split; [|done]. simpl. apply bool_decide_eq_true.
Qed.

Lemma tree_context_shape_witness :
  tree_context Sample.quiet (lit "bad.py") Sample.code_bad [0; 0]
  = lit "# Fix the error, see relevant line below marked with "
    ++ [FULL_BLOCK] ++ lit "." ++ NL ++ NL
    ++ lit "bad.py:" ++ NL
    ++ lit "  1" ++ [FULL_BLOCK] ++ lit "def f(:" ++ NL.
Proof.
  destruct (tree_context_shape Sample.quiet (lit "bad.py") Sample.code_bad
              [0; 0]) as (_ & H & _).
  - discriminate.
  - intros l Hl. apply elem_of_cons in Hl as [-> | Hl].
    + vm_compute. split; [discriminate|reflexivity].
    + apply elem_of_cons in Hl as [-> | Hl].
      * vm_compute. split; [discriminate|reflexivity].
      * by apply elem_of_nil in Hl.
  - rewrite H; reflexivity.
Defined.

(** ** Checks on sample inputs *)

Example split_words :
  split (lit "  pre-commit run   --files " ++ NL ++ lit "a b.py")
  = [lit "pre-commit"; lit "run"; lit "--files"; lit "a"; lit "b.py"].
Proof. reflexivity. Qed.

Example splitlines_crlf :
  splitlines (lit "a" ++ [13%N; 10%N] ++ lit "b" ++ NL ++ NL ++ lit "c")
  = [lit "a"; lit "b"; []; lit "c"].
Proof. reflexivity. Qed.

Example decode_utf8 :
  decode [Byte.x61; Byte.xe2; Byte.x96; Byte.x88; Byte.xc3; Byte.xa9]
  = Some [97%N; FULL_BLOCK; 233%N].
Proof. reflexivity. Qed.

Example decode_overlong : decode [Byte.xc0; Byte.x80] = None.
Proof. reflexivity. Qed.

Example decode_surrogate : decode [Byte.xed; Byte.xa0; Byte.x80] = None.
Proof. reflexivity. Qed.

Example scan_tree_bad : traverse_tree 990 Sample.tree_bad = Return [0; 0].
Proof. reflexivity. Qed.

Example scan_tree_ok : traverse_tree 990 Sample.tree_ok = Return [].
Proof. reflexivity. Qed.

Example tree_context_plural :
  tree_context Sample.quiet (lit "bad.py") Sample.code_bad [1; 0; 1]
  = lit "# Fix the errors, see relevant lines below marked with "
    ++ [FULL_BLOCK] ++ lit "." ++ NL ++ NL
    ++ lit "bad.py:" ++ NL
    ++ lit "  1" ++ [FULL_BLOCK] ++ lit "def f(:" ++ NL
    ++ lit "  2" ++ [FULL_BLOCK] ++ lit "    pass" ++ NL.
Proof. reflexivity. Qed.

Example filtered_traceback_sample :
  filtered_traceback Sample.quiet
    (mkExc (lit "SyntaxError") (AttrInt 1) (AttrInt 1))
  = [ lit "Traceback (most recent call last):" ++ NL;
      lit "  File a.py, line 1" ++ NL;
      lit "SyntaxError: invalid syntax" ++ NL ].
Proof. reflexivity. Qed.

Example lint_unknown_extension :
  lint Sample.quiet Linter_default (lit "notes.txt") = mret None.
Proof. reflexivity. Qed.

Example lint_empty_template_is_generic :
  lint Sample.quiet (set_linter Linter_default (lit "python") (Template []))
       (lit "bad.py")
  = ([EvReadText (lit "bad.py") (lit "utf-8")],
     Return (Some (tree_context Sample.quiet (lit "bad.py") Sample.code_bad
                     [0; 0]))).
Proof. reflexivity. Qed.

(** * Further properties *)

(** ** The dispatcher *)

(** The four ways [lint] can go. *)
Lemma lint_shape (W : World) (self : Linter) (fname : str) :
  (truthy_opt (filename_to_lang W fname) = false
   /\ lint W self fname = mret None)
  \/ (exists e, truthy_opt (filename_to_lang W fname) = true
                /\ get_rel_fname W self fname = Raise e
                /\ lint W self fname = raise e)
  \/ (exists rel_fname e,
        truthy_opt (filename_to_lang W fname) = true
        /\ get_rel_fname W self fname = Return rel_fname
        /\ read_text W fname (encoding self) = Raise e
        /\ lint W self fname
           = ([EvReadText fname (encoding self)], Raise e))
  \/ (exists lang rel_fname code h,
        filename_to_lang W fname = Some lang /\ lang ≠ []
        /\ get_rel_fname W self fname = Return rel_fname
        /\ read_text W fname (encoding self) = Return code
        /\ h = match languages self !! lang with
               | Some (Callable f) => f fname rel_fname code
               | Some (Template (c :: t)) =>
                   run_cmd W self (c :: t) rel_fname
               | _ => basic_lint W rel_fname code
               end
        /\ lint W self fname
           = (EvReadText fname (encoding self) :: trace h, outcome h)).
Proof.
  unfold lint.
  destruct (filename_to_lang W fname) as [[|c l]|] eqn:Hlang;
    try (left; by split).
  right.
  destruct (get_rel_fname W self fname) as [rel_fname|e] eqn:Hrel.
  - right. rewrite bind_lift_Return, bind_emit.
    destruct (read_text W fname (encoding self)) as [code|e] eqn:Hread.
    + right. exists (c :: l), rel_fname, code. eexists.
      repeat split; try done. by rewrite bind_lift_Return.
    + left. by exists rel_fname, e.
  - left. by exists e.
Qed.

(** X1. A file whose language is not recognised is skipped: [lint]
    returns nothing and makes no call, whatever is registered.  In every
    other run the first call, if there is one, reads that file with the
    encoding of the linter. *)
Theorem lint_reads_first (W : World) (self : Linter) (fname : str) :
  (truthy_opt (filename_to_lang W fname) = false ->
     lint W self fname = mret None)
  /\ (trace (lint W self fname) = []
      \/ exists t,
           trace (lint W self fname)
           = EvReadText fname (encoding self) :: t).
Proof.
  destruct (lint_shape W self fname)
    as [[Hl ->] | [(e & Hl & _ & ->) | [(r & e & Hl & _ & _ & ->)
       | (lang & r & code & h & Hl & Hne & _ & _ & _ & ->)]]].
  - split; [done|by left].
  - split; [by rewrite Hl|by left].
  - split; [by rewrite Hl|right; by eexists].
  - split; [|right; by eexists].
    rewrite Hl. by destruct lang.
Qed.

(** X2. A fault of a collaborator is passed on.  When the relative path
    cannot be computed the file is not even read; when the file cannot be
    read no handler runs. *)
Theorem lint_passes_faults (W : World) (self : Linter) (fname : str)
    (e : pyexc) :
  truthy_opt (filename_to_lang W fname) = true ->
  (get_rel_fname W self fname = Raise e ->
     lint W self fname = raise e)
  /\ (forall rel_fname,
        get_rel_fname W self fname = Return rel_fname ->
        read_text W fname (encoding self) = Raise e ->
        lint W self fname = ([EvReadText fname (encoding self)], Raise e)).
Proof.
  intros Hl.
  destruct (lint_shape W self fname)
    as [[Hl' _] | [(e' & _ & Hrel & ->) | [(r & e' & _ & Hrel & Hread & ->)
       | (lang & r & code & h & _ & _ & Hrel & Hread & _ & _)]]].
  - congruence.
  - split; [|intros r; congruence].
    intros H. rewrite Hrel in H. by injection H as ->.
  - split; [congruence|]. intros r' _ Hr.
    rewrite Hread in Hr. by injection Hr as ->.
  - split; [congruence|]. intros r' _ Hr. congruence.
Qed.

Lemma lint_passes_faults_witness :
  lint Faulty.no_relpath (Linter_init (lit "utf-8") (Some (lit "/repo")))
       (lit "a.py")
  = raise Faulty.ValueError
  /\ lint (Faulty.unreadable (Completed 0 [])) Linter_default (lit "gone.py")
     = ([EvReadText (lit "gone.py") (lit "utf-8")],
        Raise Faulty.FileNotFoundError).
Proof.
  split.
  - apply (lint_passes_faults Faulty.no_relpath
             (Linter_init (lit "utf-8") (Some (lit "/repo"))) (lit "a.py")
             Faulty.ValueError); reflexivity.
  - apply (proj2 (lint_passes_faults (Faulty.unreadable (Completed 0 []))
                    Linter_default (lit "gone.py") Faulty.FileNotFoundError
                    eq_refl) (lit "gone.py")); reflexivity.
Defined.

(** A new linter has no callable strategy. *)
Lemma Linter_init_commands_only (encoding : str) (root : option str) :
  commands_only (Linter_init encoding root).
Proof.
  intros lang f Hreg. unfold Linter_init in Hreg. simpl in Hreg.
  apply lookup_singleton_Some in Hreg as [_ Hreg]. discriminate Hreg.
Qed.

(** X3. With no callable strategy registered, [lint] reads the file at
    most once, runs at most one command, after the read and in the
    directory [root], and never calls the host compiler. *)
Theorem lint_commands_only_calls (W : World) (self : Linter) (fname : str) :
  commands_only self ->
  trace (lint W self fname) = []
  \/ trace (lint W self fname) = [EvReadText fname (encoding self)]
  \/ exists argv,
       trace (lint W self fname)
       = [EvReadText fname (encoding self); EvCheckOutput argv (root self)].
Proof.
  intros Hcmd.
  destruct (lint_shape W self fname)
    as [[_ ->] | [(e & _ & _ & ->) | [(r & e & _ & _ & _ & ->)
       | (lang & r & code & h & _ & _ & _ & _ & -> & ->)]]];
    try by left.
  - right. by left.
  - right. unfold trace at 1 3. simpl.
    destruct (languages self !! lang) as [[[|c t]|f]|] eqn:Hreg.
    + left. by rewrite basic_lint_trace.
    + right. rewrite run_cmd_trace. by eexists.
    + by destruct (Hcmd lang f).
    + left. by rewrite basic_lint_trace.
Qed.

Lemma lint_commands_only_calls_witness :
  trace (lint Sample.quiet Linter_default (lit "a.py")) = []
  \/ trace (lint Sample.quiet Linter_default (lit "a.py"))
     = [EvReadText (lit "a.py") (lit "utf-8")]
  \/ exists argv,
       trace (lint Sample.quiet Linter_default (lit "a.py"))
       = [EvReadText (lit "a.py") (lit "utf-8"); EvCheckOutput argv None].
Proof.
  apply (lint_commands_only_calls Sample.quiet Linter_default (lit "a.py")).
  apply Linter_init_commands_only.
Defined.

Lemma run_cmd_report_prefix (W : World) (self : Linter) (cmd rel_fname : str)
    (res : str) :
  outcome (run_cmd W self cmd rel_fname) = Return (Some res) ->
  startswith res (lit "# ") = true.
Proof.
  destruct (check_output W (split (cmd ++ lit " " ++ rel_fname)) (root self))
    as [rc out|e] eqn:Hrun.
  - rewrite (run_cmd_completed W self cmd rel_fname rc out Hrun).
    unfold outcome. simpl.
    destruct (decode out) as [errors|]; [|done].
    case_bool_decide; [done|]. by intros [= <-].
  - unfold run_cmd. rewrite bind_emit, Hrun. done.
Qed.

Lemma basic_lint_report_prefix (W : World) (fname code res : str) :
  outcome (basic_lint W fname code) = Return (Some res) ->
  startswith res (lit "# ") = true.
Proof.
  unfold basic_lint.
  destruct (filename_to_lang W fname) as [[|c l]|]; try done.
  destruct (get_parser W (c :: l)) as [parser|e]; [|done].
  rewrite bind_lift_Return.
  destruct (bytes_utf8 code) as [b|e]; [|done].
  rewrite bind_lift_Return.
  destruct (traverse_tree _ _) as [errors|e]; [|done].
  rewrite bind_lift_Return.
  destruct errors; [done|]. by intros [= <-].
Qed.

(** X4. With no callable strategy registered, a report of [lint] starts
    with a hash sign and a space, be it the report of a command or of the
    scanner; in particular it is not the empty string. *)
Theorem lint_report_prefix (W : World) (self : Linter) (fname res : str) :
  commands_only self ->
  outcome (lint W self fname) = Return (Some res) ->
  startswith res (lit "# ") = true /\ res ≠ [].
Proof.
  intros Hcmd Hres.
  assert (startswith res (lit "# ") = true) as Hpre;
    [|split; [done|by destruct res]].
  destruct (lint_shape W self fname)
    as [[_ Hl] | [(e & _ & _ & Hl) | [(r & e & _ & _ & _ & Hl)
       | (lang & r & code & h & _ & _ & _ & _ & -> & Hl)]]];
    rewrite Hl in Hres; try done.
  unfold outcome at 1 in Hres. simpl in Hres.
  destruct (languages self !! lang) as [[[|c t]|f]|] eqn:Hreg.
  - by apply (basic_lint_report_prefix W r code).
  - by apply (run_cmd_report_prefix W self (c :: t) r).
  - by destruct (Hcmd lang f).
  - by apply (basic_lint_report_prefix W r code).
Qed.

Lemma lint_report_prefix_witness :
  startswith (run_cmd_header ++ lit "oops") (lit "# ") = true
  /\ run_cmd_header ++ lit "oops" ≠ [].
Proof.
  apply (lint_report_prefix
           (Sample.world (Completed 1 [Byte.x6f; Byte.x6f; Byte.x70; Byte.x73])
              None)
           Linter_default (lit "a.py")).
  - apply Linter_init_commands_only.
  - reflexivity.
Defined.

(** X5. With a non-empty command template registered for the language
    of the file, a command that cannot be run makes [lint] raise the
    fault of the subprocess call, and output that is not valid UTF-8
    makes it raise UnicodeDecodeError whatever the exit status is; in both
    cases after the file was read and the command tried. *)
Theorem lint_template_faults (W : World) (self : Linter)
    (fname lang rel_fname code cmd : str) :
  filename_to_lang W fname = Some lang -> lang ≠ [] ->
  get_rel_fname W self fname = Return rel_fname ->
  read_text W fname (encoding self) = Return code ->
  languages self !! lang = Some (Template cmd) -> cmd ≠ [] ->
  let argv := split (cmd ++ lit " " ++ rel_fname) in
  (forall e, check_output W argv (root self) = SpawnError e ->
     lint W self fname
     = ([EvReadText fname (encoding self); EvCheckOutput argv (root self)],
        Raise e))
  /\ (forall returncode output,
        check_output W argv (root self) = Completed returncode output ->
        decode output = None ->
        lint W self fname
        = ([EvReadText fname (encoding self);
            EvCheckOutput argv (root self)],
           Raise UnicodeDecodeError)).
Proof.
  intros Hlang Hne Hrel Hread Hreg Hcmd argv.
  rewrite (lint_dispatch W self fname lang rel_fname code) by done.
  rewrite Hreg. destruct cmd as [|c t]; [done|]. rewrite bind_emit.
  split.
  - intros e Hrun. unfold run_cmd. fold argv. by rewrite bind_emit, Hrun.
  - intros rc out Hrun Hdec.
    rewrite (run_cmd_completed W self (c :: t) rel_fname rc out Hrun).
    by rewrite Hdec.
Qed.

Lemma lint_template_faults_witness :
  lint (Sample.world (SpawnError Faulty.FileNotFoundError) None)
       Linter_default (lit "a.py")
  = ([EvReadText (lit "a.py") (lit "utf-8");
      EvCheckOutput
        [lit "pre-commit"; lit "run"; lit "--files"; lit "a.py"] None],
     Raise Faulty.FileNotFoundError)
  /\ lint (Sample.world (Completed 1 [Byte.xc3]) None)
          Linter_default (lit "a.py")
     = ([EvReadText (lit "a.py") (lit "utf-8");
         EvCheckOutput
           [lit "pre-commit"; lit "run"; lit "--files"; lit "a.py"] None],
        Raise UnicodeDecodeError).
Proof.
  split.
  - apply (lint_template_faults
             (Sample.world (SpawnError Faulty.FileNotFoundError) None)
             Linter_default (lit "a.py") (lit "python") (lit "a.py")
             Sample.code_ok (lit "pre-commit run --files"));
      try reflexivity; discriminate.
  - apply (proj2 (lint_template_faults
             (Sample.world (Completed 1 [Byte.xc3]) None)
             Linter_default (lit "a.py") (lit "python") (lit "a.py")
             Sample.code_ok (lit "pre-commit run --files")
             eq_refl ltac:(discriminate) eq_refl eq_refl eq_refl
             ltac:(discriminate)) 1 [Byte.xc3]); reflexivity.
Defined.

(** ** The registry *)

(** X6. Registering a handler for one language does not change how files
    of other languages are linted, and a later registration for a language
    replaces an earlier one.  After a callable strategy is registered for
    the language of a file, [lint] reads the file and hands the file
    name, the relative name and the contents to the strategy, whose result
    it returns. *)
Theorem set_linter_lint (W : World) (self : Linter) (lang : str)
    (h : Handler) (fname : str) :
  (filename_to_lang W fname ≠ Some lang ->
     lint W (set_linter self lang h) fname = lint W self fname)
  /\ (forall h',
        lint W (set_linter (set_linter self lang h') lang h) fname
        = lint W (set_linter self lang h) fname)
  /\ (forall f rel_fname code,
        h = Callable f ->
        filename_to_lang W fname = Some lang -> lang ≠ [] ->
        get_rel_fname W self fname = Return rel_fname ->
        read_text W fname (encoding self) = Return code ->
        lint W (set_linter self lang h) fname
        = (EvReadText fname (encoding self) :: trace (f fname rel_fname code),
           outcome (f fname rel_fname code))).
Proof.
  split; [|split].
  - intros Hother. unfold lint.
    destruct (filename_to_lang W fname) as [[|c l]|]; try done.
    change (get_rel_fname W (set_linter self lang h) fname)
      with (get_rel_fname W self fname).
    change (encoding (set_linter self lang h)) with (encoding self).
    change (languages (set_linter self lang h))
      with (<[lang := h]> (languages self)).
    rewrite lookup_insert_ne by congruence.
    destruct (languages self !! (c :: l)) as [[[|c' t]|f]|]; done.
  - intros h'. unfold set_linter. simpl. by rewrite insert_insert_eq.
  - intros f rel_fname code -> Hlang Hne Hrel Hread.
    rewrite (lint_dispatch W _ fname lang rel_fname code) by done.
    change (languages (set_linter self lang (Callable f)))
      with (<[lang := Callable f]> (languages self)).
    by rewrite lookup_insert_eq, bind_emit.
Qed.

(** ** The scanner behind [basic_lint] *)

(** [basic_lint] for a file of a language with a parser. *)
Lemma basic_lint_resolved (W : World) (fname code lang : str)
    (parser : str -> Node) :
  filename_to_lang W fname = Some lang -> lang ≠ [] ->
  get_parser W lang = Return parser ->
  basic_lint W fname code
  = match encode code with
    | None => raise UnicodeEncodeError
    | Some _ =>
        if decide (height (parser code) <= recursion_frames W)%nat
        then match error_lines (parser code) with
             | [] => mret None
             | _ => mret (Some (tree_context W fname code
                                  (error_lines (parser code))))
             end
        else raise RecursionError
    end.
Proof.
  intros Hlang Hne Hparser. unfold basic_lint. rewrite Hlang.
  destruct lang as [|c l]; [done|].
  rewrite Hparser, bind_lift_Return. unfold bytes_utf8.
  destruct (encode code) as [b|]; [|done].
  rewrite bind_lift_Return, traverse_tree_height.
  destruct (decide (height (parser code) <= recursion_frames W)%nat); [|done].
  rewrite bind_lift_Return. by destruct (error_lines (parser code)).
Qed.

(** X7. For a file of a language with a parser, a text that has a UTF-8
    encoding and a tree with no more levels than the interpreter still
    allows nested calls, [basic_lint] returns nothing exactly when the
    tree has no ERROR node and no missing node, and otherwise returns the
    rendering of the start lines of those nodes. *)
Theorem basic_lint_reports_iff (W : World) (fname code lang : str)
    (parser : str -> Node) :
  filename_to_lang W fname = Some lang -> lang ≠ [] ->
  get_parser W lang = Return parser ->
  encode code ≠ None ->
  (height (parser code) <= recursion_frames W)%nat ->
  (basic_lint W fname code = mret None
   <-> forall n, subnode n (parser code) -> is_error n = false)
  /\ (forall res,
        basic_lint W fname code = mret (Some res)
        <-> (exists n, subnode n (parser code) /\ is_error n = true)
            /\ res = tree_context W fname code
                       (List.map start_line
                          (List.filter is_error (nodes (parser code))))).
Proof.
  intros Hlang Hne Hparser Henc Hheight.
  rewrite (basic_lint_resolved W fname code lang parser) by done.
  destruct (encode code) as [b|]; [|done].
  rewrite decide_True by done.
  rewrite <- error_lines_nil_iff. fold (error_lines (parser code)).
  destruct (error_lines (parser code)) as [|l0 ls] eqn:Hscan.
  - split; [done|]. intros res. split; [done|].
    intros [(n & Hn & He) _].
    assert (start_line n ∈ error_lines (parser code)) as Hin
      by (apply elem_of_error_lines; by exists n).
    rewrite Hscan in Hin. by apply elem_of_nil in Hin.
  - split; [done|]. intros res. split.
    + intros [= <-]. split; [|done].
      assert (l0 ∈ error_lines (parser code)) as Hin
        by (rewrite Hscan; left).
      apply elem_of_error_lines in Hin as (n & Hn & He & _). by exists n.
    + by intros [_ ->].
Qed.

Lemma basic_lint_reports_iff_witness :
  (basic_lint Sample.quiet (lit "bad.py") Sample.code_bad = mret None
   <-> forall n, subnode n (Sample.parser Sample.code_bad) ->
                 is_error n = false)
  /\ (forall res,
        basic_lint Sample.quiet (lit "bad.py") Sample.code_bad
        = mret (Some res)
        <-> (exists n, subnode n (Sample.parser Sample.code_bad)
                       /\ is_error n = true)
            /\ res = tree_context Sample.quiet (lit "bad.py") Sample.code_bad
                       (List.map start_line
                          (List.filter is_error
                             (nodes (Sample.parser Sample.code_bad))))).
Proof.
  apply (basic_lint_reports_iff Sample.quiet (lit "bad.py") Sample.code_bad
           (lit "python") Sample.parser);
    try reflexivity; try discriminate.
  vm_compute. lia.
Defined.

Lemma encode_surrogate (code : str) (c : N) :
  c ∈ code -> (55296 <= c <= 57343)%N -> encode code = None.
Proof.
  intros Hin Hc. induction code as [|d code IH]; [by apply elem_of_nil in Hin|].
  apply elem_of_cons in Hin as [<- | Hin].
  - simpl. unfold encode_char.
    destruct (N.ltb_spec c 128); [lia|].
    destruct (N.ltb_spec c 2048); [lia|].
    destruct (N.ltb_spec c 65536); [|lia].
    destruct (N.leb_spec 55296 c); [|lia].
    destruct (N.leb_spec c 57343); [|lia]. done.
  - simpl. rewrite (IH Hin). by destruct (encode_char d).
Qed.

(** X19. [basic_lint] catches nothing.  For a file of a language with a
    parser, a text with a surrogate code point makes it raise
    UnicodeEncodeError before anything is parsed, and a text whose tree
    has more levels than the interpreter still allows nested calls makes
    it raise RecursionError, whether or not the tree has an error. *)
Theorem basic_lint_raises (W : World) (fname code lang : str)
    (parser : str -> Node) :
  filename_to_lang W fname = Some lang -> lang ≠ [] ->
  get_parser W lang = Return parser ->
  ((exists c, c ∈ code /\ (55296 <= c <= 57343)%N) ->
     basic_lint W fname code = raise UnicodeEncodeError)
  /\ (encode code ≠ None ->
      (recursion_frames W < height (parser code))%nat ->
      basic_lint W fname code = raise RecursionError).
Proof.
  intros Hlang Hne Hparser.
  rewrite (basic_lint_resolved W fname code lang parser) by done.
  split.
  - intros (c & Hin & Hc). by rewrite (encode_surrogate code c).
  - intros Henc Hdeep. destruct (encode code); [|done].
    by rewrite decide_False by lia.
Qed.

Lemma basic_lint_raises_witness :
  basic_lint Sample.quiet (lit "a.py") (lit "x = " ++ [55296%N])
  = raise UnicodeEncodeError
  /\ basic_lint (Deep.world Deep.tree_bad) (lit "a.py") Sample.code_ok
     = raise RecursionError.
Proof.
  split.
  - apply (basic_lint_raises Sample.quiet (lit "a.py")
             (lit "x = " ++ [55296%N]) (lit "python") Sample.parser);
      try reflexivity; [discriminate|].
    exists 55296%N. split; [|lia]. do 4 right. left.
  - apply (basic_lint_raises (Deep.world Deep.tree_bad) (lit "a.py")
             Sample.code_ok (lit "python") (fun _ => Deep.tree_bad));
      try reflexivity; try discriminate.
    unfold Deep.tree_bad. rewrite height_nest. vm_compute. lia.
Defined.

(** ** The words of the command line *)

Lemma no_space_rev (s : str) : no_space s -> no_space (rev s).
Proof.
  intros H c Hc. apply H.
  apply list_elem_of_In, in_rev. by apply list_elem_of_In.
Qed.

Lemma no_space_cons (c : N) (s : str) :
  isspace c = false -> no_space s -> no_space (c :: s).
Proof.
  intros Hc Hs d Hd. apply elem_of_cons in Hd as [-> | Hd]; [done|].
  by apply Hs.
Qed.

Lemma rev_not_nil (c : N) (s : str) : rev (c :: s) ≠ [].
Proof. simpl. by destruct (rev s). Qed.

Lemma split_from_words (cur s : str) :
  no_space cur ->
  Forall (fun w => w ≠ [] /\ no_space w) (split_from cur s).
Proof.
  revert cur. induction s as [|c s IH]; intros cur Hcur; simpl.
  - destruct cur as [|d cur]; [constructor|].
    repeat constructor; [apply rev_not_nil|by apply no_space_rev].
  - destruct (isspace c) eqn:Ec.
    + assert (no_space []) as Hnil by (by intros d ?%elem_of_nil).
      destruct cur as [|d cur]; [by apply IH|].
      constructor; [|by apply IH].
      split; [apply rev_not_nil|by apply no_space_rev].
    + apply IH. by apply no_space_cons.
Qed.

Lemma split_from_concat (cur s : str) :
  concat (split_from cur s)
  = rev cur ++ List.filter (fun c => negb (isspace c)) s.
Proof.
  revert cur. induction s as [|c s IH]; intros cur; simpl.
  - destruct cur; [done|]. simpl. by rewrite !app_nil_r.
  - destruct (isspace c) eqn:Ec; simpl.
    + destruct cur as [|d cur]; [by rewrite IH|].
      simpl. by rewrite IH.
    + rewrite IH. simpl. by rewrite <- app_assoc.
Qed.

Lemma split_from_no_space (cur s : str) :
  no_space s -> cur ≠ [] \/ s ≠ [] ->
  split_from cur s = [rev cur ++ s].
Proof.
  revert cur. induction s as [|c s IH]; intros cur Hs Hne; simpl.
  - destruct Hne as [Hne|Hne]; [|done].
    destruct cur; [done|]. by rewrite app_nil_r.
  - rewrite (Hs c) by left.
    rewrite IH; [|intros d Hd; apply Hs; by right|by left].
    simpl. by rewrite <- app_assoc.
Qed.

(** X8. The argument vector [run_cmd] hands to the subprocess has no
    empty argument and no argument with white space in it, and the
    arguments joined are the characters of the template and of the file
    name that are not white space, in order. *)
Theorem run_cmd_argv_words (W : World) (self : Linter) (cmd rel_fname : str) :
  exists argv,
    trace (run_cmd W self cmd rel_fname) = [EvCheckOutput argv (root self)]
    /\ Forall (fun arg => arg ≠ [] /\ no_space arg) argv
    /\ concat argv
       = List.filter (fun c => negb (isspace c)) (cmd ++ rel_fname).
Proof.
  exists (split (cmd ++ lit " " ++ rel_fname)).
  split; [apply run_cmd_trace|]. split.
  - apply split_from_words. by intros d ?%elem_of_nil.
  - unfold split. rewrite split_from_concat. simpl.
    by rewrite !List.filter_app.
Qed.

(** X9. With the default linter, a Python file whose name is not empty
    and has no white space is read and then given to pre-commit as the
    one argument after [--files], unchanged. *)
Theorem lint_default_plain_name (W : World) (fname code : str) :
  filename_to_lang W fname = Some (lit "python") ->
  read_text W fname (lit "utf-8") = Return code ->
  fname ≠ [] -> no_space fname ->
  trace (lint W Linter_default fname)
  = [EvReadText fname (lit "utf-8");
     EvCheckOutput [lit "pre-commit"; lit "run"; lit "--files"; fname] None].
Proof.
  intros Hlang Hread Hne Hsp.
  rewrite (lint_dispatch W Linter_default fname (lit "python") fname code)
    by done.
  change (languages Linter_default !! lit "python")
    with (Some (Template (lit "pre-commit run --files"))).
  change (lit "pre-commit run --files")
    with (112%N :: lit "re-commit run --files").
  cbv beta iota. rewrite bind_emit. unfold trace at 1. simpl fst.
  rewrite run_cmd_trace. do 2 f_equal.
  change (112%N :: lit "re-commit run --files")
    with (lit "pre-commit run --files").
  rewrite split_app_space. unfold split at 2.
  rewrite split_from_no_space by (done || by right). done.
Qed.

Lemma lint_default_plain_name_witness :
  trace (lint Sample.quiet Linter_default (lit "src/a.py"))
  = [EvReadText (lit "src/a.py") (lit "utf-8");
     EvCheckOutput
       [lit "pre-commit"; lit "run"; lit "--files"; lit "src/a.py"] None].
Proof.
  apply (lint_default_plain_name Sample.quiet (lit "src/a.py") Sample.code_ok);
    try reflexivity; [discriminate|].
  intros c Hc. vm_compute in Hc.
  repeat (apply elem_of_cons in Hc as [-> | Hc]; [reflexivity|]).
  by apply elem_of_nil in Hc.
Defined.

(** ** The traceback filter *)

Lemma startswith_spec (s t : str) :
  startswith s t = true <-> exists post, s = t ++ post.
Proof.
  revert s. induction t as [|b t IH]; intros s.
  - split; [by exists s|by destruct s].
  - destruct s as [|a s]; simpl.
    + split; [done|]. by intros (post & ?).
    + rewrite andb_true_iff, N.eqb_eq, IH. split.
      * intros [-> (post & ->)]. by exists post.
      * intros (post & [= -> ->]). split; [done|by exists post].
Qed.

Lemma contains_spec (line t : str) :
  contains line t = true <-> substring t line.
Proof.
  unfold substring. induction line as [|a line IH].
  - change (contains [] t) with (startswith [] t || false).
    rewrite orb_false_r, startswith_spec. split.
    + intros (post & H). by exists [], post.
    + intros ([|p pre] & post & H); [by exists post|done].
  - change (contains (a :: line) t)
      with (startswith (a :: line) t || contains line t).
    rewrite orb_true_iff, startswith_spec, IH. split.
    + intros [(post & H) | (pre & post & ->)].
      * by exists [], post.
      * by exists (a :: pre), post.
    + intros ([|p pre] & post & H).
      * left. by exists post.
      * right. injection H as -> ->. by exists pre, post.
Qed.

Lemma first_with_target_None (i : nat) (tb_lines : list str) :
  first_with_target i tb_lines = None
  <-> forall l, l ∈ tb_lines -> contains l target = false.
Proof.
  revert i. induction tb_lines as [|l ls IH]; intros i; simpl.
  - split; [by intros _ l ?%elem_of_nil|done].
  - destruct (contains l target) eqn:E.
    + split; [done|]. intros H. specialize (H l). rewrite E in H.
      discriminate H. left.
    + rewrite IH. split.
      * intros H l' [-> | Hl']%elem_of_cons; [done|by apply H].
      * intros H l' Hl'. apply H. by right.
Qed.

Lemma first_with_target_Some (i j : nat) (tb_lines : list str) :
  first_with_target i tb_lines = Some j
  <-> exists (k : nat) (l : str),
        j = (i + k)%nat /\ tb_lines !! k = Some l
        /\ contains l target = true
        /\ forall (k' : nat) l', (k' < k)%nat -> tb_lines !! k' = Some l' ->
                                 contains l' target = false.
Proof.
  revert i. induction tb_lines as [|l ls IH]; intros i; simpl.
  - split; [done|]. by intros (k & l & _ & ? & _).
  - destruct (contains l target) eqn:E.
    + split.
      * intros [= <-]. exists 0%nat, l. repeat split; [lia|done|]. lia.
      * intros ([|k] & l' & -> & Hl & Hc & Hfirst).
        -- f_equal. lia.
        -- specialize (Hfirst 0%nat l). rewrite E in Hfirst.
           discriminate Hfirst; [lia|done].
    + rewrite IH. split.
      * intros (k & l' & -> & Hl & Hc & Hfirst).
        exists (S k), l'. repeat split; [lia|done|done|].
        intros [|k'] l'' Hlt Hl''.
        -- simpl in Hl''. by injection Hl'' as <-.
        -- apply (Hfirst k'); [lia|done].
      * intros ([|k] & l' & -> & Hl & Hc & Hfirst).
        -- simpl in Hl. injection Hl as <-. congruence.
        -- exists k, l'. repeat split; [lia|done|done|].
           intros k' l'' Hlt Hl''. apply (Hfirst (S k')); [lia|done].
Qed.

(** X10. The traceback filter of [lint_python_compile] keeps the first
    line and drops the lines after it up to and including the first line
    that holds the marker comment.  A traceback without the marker is
    left as it is, and so is one whose first line holds it.  What is kept
    is in the order of the traceback. *)
Theorem filtered_traceback_spec (W : World) (err : pyexc) :
  let tb_lines := format_exception W err in
  ((forall l, l ∈ tb_lines -> ~ substring target l) ->
     filtered_traceback W err = tb_lines)
  /\ (forall (i : nat) l,
        tb_lines !! i = Some l -> substring target l ->
        (forall (j : nat) l', (j < i)%nat -> tb_lines !! j = Some l' ->
                              ~ substring target l') ->
        filtered_traceback W err = take 1 tb_lines ++ drop (S i) tb_lines)
  /\ filtered_traceback W err `sublist_of` tb_lines
  /\ head (filtered_traceback W err) = head tb_lines.
Proof.
  intros tb_lines. unfold filtered_traceback. fold tb_lines.
  split; [|split; [|split]].
  - intros Hnone.
    assert (first_with_target 0 tb_lines = None) as ->.
    { apply first_with_target_None. intros l Hl.
      destruct (contains l target) eqn:E; [|done].
      apply contains_spec in E. by destruct (Hnone l Hl). }
    simpl. apply take_drop.
  - intros i l Hl Hsub Hfirst.
    assert (first_with_target 0 tb_lines = Some i) as ->.
    { apply first_with_target_Some. exists i, l.
      repeat split; [done|by apply contains_spec|].
      intros j l' Hlt Hl'. destruct (contains l' target) eqn:E; [|done].
      apply contains_spec in E. by destruct (Hfirst j l' Hlt Hl'). }
    simpl. by rewrite Nat.add_1_r.
  - rewrite Nat.add_1_r. destruct tb_lines as [|l ls]; [done|].
    simpl. apply sublist_skip, sublist_drop.
  - by destruct tb_lines.
Qed.

(** ** More on the compile fallback *)

Lemma NoDup_range (a b : Z) : NoDup (range a b).
Proof.
  unfold range. generalize (Z.to_nat (b - a)) as n. generalize 0%nat as s.
  intros s n. revert s. induction n as [|n IH]; intros s; simpl.
  - constructor.
  - constructor; [|apply IH].
    rewrite list_elem_of_In, in_map_iff. intros (i & Hi & Hin).
    apply in_seq in Hin. lia.
Qed.

Lemma length_range (a b : Z) : length (range a b) = Z.to_nat (b - a).
Proof. unfold range. by rewrite List.length_map, List.length_seq. Qed.

(** The instruction line of [tree_context] is in the plural exactly when
    the set of line numbers has two members or more. *)
Lemma tree_context_header (W : World) (fname code : str)
    (line_nums : list Z) :
  startswith (tree_context W fname code line_nums)
             (lit "# Fix the errors, see relevant lines below marked with ")
  = bool_decide (1 < size (list_to_set line_nums : gset Z))%nat
  /\ startswith (tree_context W fname code line_nums)
                (lit "# Fix the error, see relevant line below marked with ")
     = negb (bool_decide (1 < size (list_to_set line_nums : gset Z))%nat).
Proof.
  unfold tree_context. by case_bool_decide.
Qed.

(** X11. When the host compiler fails with an error that reports integer
    start and end lines, the line numbers captured are pairwise distinct
    and there are [end_lineno - lineno + 1] of them (none when the end is
    before the start), and the rendering that follows the traceback in the
    report has its instruction line in the plural exactly when the end
    line is after the start line. *)
Theorem compile_report_header (W : World) (fname code : str) (err : pyexc)
    (lineno end_lineno : Z) :
  compile W code fname = Some err ->
  exc_lineno err = AttrInt lineno ->
  exc_end_lineno err = AttrInt end_lineno ->
  exists line_numbers context,
    line_numbers_of err = Return line_numbers
    /\ NoDup line_numbers
    /\ length line_numbers = Z.to_nat (end_lineno - lineno + 1)
    /\ outcome (lint_python_compile W fname code)
       = Return (Some (concat (filtered_traceback W err) ++ NL ++ context))
    /\ (startswith context
          (lit "# Fix the errors, see relevant lines below marked with ")
        = true <-> lineno < end_lineno)
    /\ (startswith context
          (lit "# Fix the error, see relevant line below marked with ")
        = true <-> end_lineno <= lineno).
Proof.
  intros Hcompile Hstart Hend.
  exists (range (lineno - 1) end_lineno).
  exists (tree_context W fname code (range (lineno - 1) end_lineno)).
  assert (line_numbers_of err = Return (range (lineno - 1) end_lineno))
    as Hnums by (unfold line_numbers_of; by rewrite Hstart, Hend).
  pose proof (NoDup_range (lineno - 1) end_lineno) as Hnd.
  pose proof (length_range (lineno - 1) end_lineno) as Hlen.
  destruct (tree_context_header W fname code (range (lineno - 1) end_lineno))
    as [-> ->].
  rewrite (size_list_to_set (C:=gset Z)) by done. rewrite Hlen.
  split; [done|]. split; [done|]. split; [f_equal; lia|].
  split; [by rewrite lint_python_compile_cases, Hcompile, Hnums|].
  rewrite negb_true_iff, bool_decide_eq_true, bool_decide_eq_false. lia.
Qed.

Lemma compile_report_header_witness :
  exists line_numbers context,
    line_numbers_of (mkExc (lit "SyntaxError") (AttrInt 1) (AttrInt 2))
    = Return line_numbers
    /\ NoDup line_numbers
    /\ length line_numbers = Z.to_nat (2 - 1 + 1)
    /\ outcome (lint_python_compile
                  (Sample.world (Completed 0 [])
                     (Some (mkExc (lit "SyntaxError") (AttrInt 1) (AttrInt 2))))
                  (lit "bad.py") Sample.code_bad)
       = Return (Some (concat (filtered_traceback
                                 (Sample.world (Completed 0 [])
                                    (Some (mkExc (lit "SyntaxError")
                                             (AttrInt 1) (AttrInt 2))))
                                 (mkExc (lit "SyntaxError") (AttrInt 1)
                                    (AttrInt 2)))
                       ++ NL ++ context))
    /\ (startswith context
          (lit "# Fix the errors, see relevant lines below marked with ")
        = true <-> 1 < 2)
    /\ (startswith context
          (lit "# Fix the error, see relevant line below marked with ")
        = true <-> 2 <= 1).
Proof.
  apply (compile_report_header
           (Sample.world (Completed 0 [])
              (Some (mkExc (lit "SyntaxError") (AttrInt 1) (AttrInt 2))))
           (lit "bad.py") Sample.code_bad
           (mkExc (lit "SyntaxError") (AttrInt 1) (AttrInt 2)) 1 2);
    reflexivity.
Defined.

(** X12. [lint_python_compile] calls the host compiler once and makes no
    other call.  It returns nothing exactly when the compiler accepts the
    source; a report is never empty and comes only from an error with
    integer start and end lines; and for an error without them the handler
    raises, before anything is rendered, AttributeError when the attribute
    is absent and TypeError when it is None. *)
Theorem lint_python_compile_outcomes (W : World) (fname code : str) :
  trace (lint_python_compile W fname code) = [EvCompile code fname]
  /\ (outcome (lint_python_compile W fname code) = Return None
      <-> compile W code fname = None)
  /\ (forall res,
        outcome (lint_python_compile W fname code) = Return (Some res) ->
        res ≠ []
        /\ exists err lineno end_lineno,
             compile W code fname = Some err
             /\ exc_lineno err = AttrInt lineno
             /\ exc_end_lineno err = AttrInt end_lineno)
  /\ (forall err,
        compile W code fname = Some err ->
        (exc_lineno err = NoAttr ->
           outcome (lint_python_compile W fname code) = Raise AttributeError)
        /\ (exc_lineno err = AttrNone ->
              outcome (lint_python_compile W fname code) = Raise TypeError)
        /\ (forall lineno,
              exc_lineno err = AttrInt lineno ->
              (exc_end_lineno err = NoAttr ->
                 outcome (lint_python_compile W fname code)
                 = Raise AttributeError)
              /\ (exc_end_lineno err = AttrNone ->
                    outcome (lint_python_compile W fname code)
                    = Raise TypeError))).
Proof.
  rewrite lint_python_compile_cases. unfold trace, outcome. simpl.
  split; [done|].
  destruct (compile W code fname) as [err|];
    [|split; [done|]; split; [done|]; by intros err [=]].
  unfold line_numbers_of.
  split; [|split].
  - split; [|done].
    destruct (exc_lineno err); try done. by destruct (exc_end_lineno err).
  - intros res Hres. split.
    + destruct (exc_lineno err); try done.
      destruct (exc_end_lineno err); try done.
      injection Hres as <-. intros H.
      apply app_eq_nil in H as [_ H]. discriminate H.
    + destruct (exc_lineno err) as [| |a] eqn:Ha; try done.
      destruct (exc_end_lineno err) as [| |b] eqn:Hb; try done.
      by exists err, a, b.
  - intros err' [= <-]. repeat split.
    + by intros ->.
    + by intros ->.
    + intros ->. by rewrite H.
    + intros ->. by rewrite H.
Qed.

(** X13. For a relative file name of a language with a parser, a text
    that has a UTF-8 encoding and a tree with no more levels than the
    interpreter still allows nested calls, [py_lint] returns nothing
    exactly when the tree has no ERROR or missing node and the host
    compiler accepts the source.  When the tree has such a node the report
    is the rendering of the scanner's lines under the relative file name,
    and the compiler is not called. *)
Theorem py_lint_outcome (W : World) (self : Linter)
    (fname rel_fname code lang : str) (parser : str -> Node) :
  filename_to_lang W rel_fname = Some lang -> lang ≠ [] ->
  get_parser W lang = Return parser ->
  encode code ≠ None ->
  (height (parser code) <= recursion_frames W)%nat ->
  (outcome (py_lint W self fname rel_fname code) = Return None
   <-> (forall n, subnode n (parser code) -> is_error n = false)
       /\ compile W code fname = None)
  /\ ((exists n, subnode n (parser code) /\ is_error n = true) ->
      py_lint W self fname rel_fname code
      = mret (Some (tree_context W rel_fname code
                      (List.map start_line
                         (List.filter is_error (nodes (parser code))))))).
Proof.
  intros Hlang Hne Hparser Henc Hheight. unfold py_lint.
  rewrite (basic_lint_resolved W rel_fname code lang parser) by done.
  destruct (encode code) as [b|]; [|done].
  rewrite decide_True by done.
  rewrite <- error_lines_nil_iff. fold (error_lines (parser code)).
  destruct (error_lines (parser code)) as [|l ls] eqn:Hscan.
  - rewrite bind_ret. simpl. split.
    + rewrite lint_python_compile_cases. unfold outcome. simpl.
      destruct (compile W code fname) as [err|]; [|done].
      split; [|by intros [_ [=]]].
      by destruct (line_numbers_of err).
    + intros (n & Hn & He).
      assert (start_line n ∈ error_lines (parser code)) as Hin
        by (apply elem_of_error_lines; by exists n).
      rewrite Hscan in Hin. by apply elem_of_nil in Hin.
  - rewrite bind_ret. simpl. split; [|done].
    split; [done|]. by intros [[=] _].
Qed.

Lemma py_lint_outcome_witness :
  (outcome (py_lint Sample.quiet Linter_default (lit "/repo/a.py")
              (lit "a.py") Sample.code_ok) = Return None
   <-> (forall n, subnode n (Sample.parser Sample.code_ok) ->
                  is_error n = false)
       /\ compile Sample.quiet Sample.code_ok (lit "/repo/a.py") = None)
  /\ ((exists n, subnode n (Sample.parser Sample.code_ok)
                 /\ is_error n = true) ->
      py_lint Sample.quiet Linter_default (lit "/repo/a.py") (lit "a.py")
        Sample.code_ok
      = mret (Some (tree_context Sample.quiet (lit "a.py") Sample.code_ok
                      (List.map start_line
                         (List.filter is_error
                            (nodes (Sample.parser Sample.code_ok))))))).
Proof.
  apply (py_lint_outcome Sample.quiet Linter_default (lit "/repo/a.py")
           (lit "a.py") Sample.code_ok (lit "python") Sample.parser);
    try reflexivity; try discriminate.
  vm_compute. lia.
Defined.

(** ** The command line *)

Lemma calls_app (l1 l2 : list main_event) :
  calls (l1 ++ l2) = calls l1 ++ calls l2.
Proof. unfold calls. apply omap_app. Qed.

Lemma printed_app (l1 l2 : list main_event) :
  printed (l1 ++ l2) = printed l1 ++ printed l2.
Proof. unfold printed. apply omap_app. Qed.

Lemma calls_Call (t : list event) : calls (List.map Call t) = t.
Proof. induction t as [|ev t IH]; [done|]. simpl. unfold calls in *. simpl. by rewrite IH. Qed.

Lemma printed_Call (t : list event) : printed (List.map Call t) = [].
Proof. induction t as [|ev t IH]; [done|]. simpl. unfold printed in *. simpl. by rewrite IH. Qed.

(** One turn of the loop of [main]. *)
Lemma main_loop_cons (W : World) (linter : Linter) (file_path : str)
    (files : list str) :
  main_loop W linter (file_path :: files)
  = match outcome (lint W linter file_path) with
    | Raise e =>
        (List.map Call (trace (lint W linter file_path)), Uncaught e)
    | Return errors =>
        (List.map Call (trace (lint W linter file_path))
         ++ match shown (Return errors) with
            | Some s => [Print s]
            | None => []
            end
         ++ fst (main_loop W linter files),
         snd (main_loop W linter files))
    end.
Proof.
  simpl. destruct (lint W linter file_path) as [t [errors|e]]; [|done].
  unfold trace, outcome. simpl.
  destruct (main_loop W linter files) as [log e].
  by destruct errors as [[|c s]|].
Qed.

(** The files linted without a fault, up to the rest of the loop. *)
Lemma main_loop_app (W : World) (linter : Linter) (pre rest : list str) :
  (forall f, f ∈ pre -> exists r, outcome (lint W linter f) = Return r) ->
  exists log,
    main_loop W linter (pre ++ rest)
    = (log ++ fst (main_loop W linter rest), snd (main_loop W linter rest))
    /\ printed log = omap (fun f => shown (outcome (lint W linter f))) pre
    /\ calls log = flat_map (fun f => trace (lint W linter f)) pre.
Proof.
  induction pre as [|f pre IH]; intros Hok.
  - exists []. simpl. by destruct (main_loop W linter rest).
  - destruct IH as (log & Hloop & Hprinted & Hcalls).
    { intros g Hg. apply Hok. by right. }
    destruct (Hok f) as [r Hr]; [left|].
    change ((f :: pre) ++ rest) with (f :: (pre ++ rest)).
    rewrite main_loop_cons, Hr, Hloop.
    exists (List.map Call (trace (lint W linter f))
            ++ match shown (Return r) with
               | Some s => [Print s]
               | None => []
               end
            ++ log).
    split; [by rewrite <- !app_assoc|]. split.
    + rewrite !printed_app, printed_Call, Hprinted. simpl. rewrite Hr.
      by destruct r as [[|c s]|].
    + rewrite !calls_app, calls_Call, Hcalls. simpl.
      by destruct r as [[|c s]|].
Qed.

Lemma main_loop_no_exit (W : World) (linter : Linter) (files : list str)
    (code : Z) :
  snd (main_loop W linter files) ≠ SystemExit code.
Proof.
  induction files as [|f files IH]; [done|].
  rewrite main_loop_cons. by destruct (outcome (lint W linter f)).
Qed.

(** X14. Without a file argument [main] prints the usage line, lints
    nothing and exits with status 1.  With file arguments it never calls
    [sys.exit]: it returns, whatever the reports were, or stops on an
    uncaught exception. *)
Theorem main_exit (W : World) (argv : list str) (cwd : str) :
  ((length argv < 2)%nat ->
     main W argv cwd = ([Print usage], SystemExit 1))
  /\ ((2 <= length argv)%nat ->
      forall code, snd (main W argv cwd) ≠ SystemExit code).
Proof.
  unfold main. split; intros Hlen.
  - by rewrite bool_decide_eq_true_2.
  - rewrite bool_decide_eq_false_2 by lia. apply main_loop_no_exit.
Qed.

(** X15. When [lint] raises for none of the files given, [main] lints
    them in the order given with a linter rooted at the working
    directory, prints the reports that are not empty, in that order and
    nothing else, and returns. *)
Theorem main_prints_reports (W : World) (argv : list str) (cwd : str) :
  (2 <= length argv)%nat ->
  (forall f, f ∈ drop 1 argv ->
     exists r,
       outcome (lint W (Linter_init (lit "utf-8") (Some cwd)) f) = Return r) ->
  snd (main W argv cwd) = Finished
  /\ printed (fst (main W argv cwd))
     = omap (fun f => shown (outcome (lint W (Linter_init (lit "utf-8")
                                                (Some cwd)) f)))
            (drop 1 argv)
  /\ calls (fst (main W argv cwd))
     = flat_map (fun f => trace (lint W (Linter_init (lit "utf-8")
                                           (Some cwd)) f))
                (drop 1 argv).
Proof.
  intros Hlen Hok. unfold main. rewrite bool_decide_eq_false_2 by lia.
  destruct (main_loop_app W (Linter_init (lit "utf-8") (Some cwd))
              (drop 1 argv) [] Hok) as (log & Hloop & Hprinted & Hcalls).
  rewrite app_nil_r in Hloop. rewrite Hloop. simpl.
  by rewrite app_nil_r.
Qed.

(** X16. When [lint] raises for one of the files, [main] stops there
    with that exception: the reports of the files before it have been
    printed, and the files after it are not touched. *)
Theorem main_stops_at_fault (W : World) (argv : list str) (cwd : str)
    (pre post : list str) (f : str) (e : pyexc) :
  (2 <= length argv)%nat ->
  drop 1 argv = pre ++ f :: post ->
  (forall g, g ∈ pre ->
     exists r,
       outcome (lint W (Linter_init (lit "utf-8") (Some cwd)) g) = Return r) ->
  outcome (lint W (Linter_init (lit "utf-8") (Some cwd)) f) = Raise e ->
  snd (main W argv cwd) = Uncaught e
  /\ printed (fst (main W argv cwd))
     = omap (fun g => shown (outcome (lint W (Linter_init (lit "utf-8")
                                                (Some cwd)) g))) pre
  /\ calls (fst (main W argv cwd))
     = flat_map (fun g => trace (lint W (Linter_init (lit "utf-8")
                                           (Some cwd)) g))
                (pre ++ [f]).
Proof.
  intros Hlen Hfiles Hok Hraise. unfold main.
  rewrite bool_decide_eq_false_2 by lia. rewrite Hfiles.
  destruct (main_loop_app W (Linter_init (lit "utf-8") (Some cwd))
              pre (f :: post) Hok) as (log & Hloop & Hprinted & Hcalls).
  rewrite Hloop, main_loop_cons, Hraise. simpl.
  split; [done|]. split.
  - by rewrite printed_app, printed_Call, app_nil_r.
  - rewrite calls_app, calls_Call, Hcalls, flat_map_app. simpl.
    by rewrite app_nil_r.
Qed.

Lemma main_prints_reports_witness :
  snd (main (Sample.world (Completed 1 [Byte.x6f; Byte.x6f; Byte.x70; Byte.x73])
               None)
         [lit "linter.py"; lit "a.py"; lit "notes.txt"; lit "b.py"]
         (lit "/repo"))
  = Finished
  /\ printed
       (fst (main (Sample.world
                     (Completed 1 [Byte.x6f; Byte.x6f; Byte.x70; Byte.x73])
                     None)
               [lit "linter.py"; lit "a.py"; lit "notes.txt"; lit "b.py"]
               (lit "/repo")))
     = [run_cmd_header ++ lit "oops"; run_cmd_header ++ lit "oops"].
Proof.
  destruct (main_prints_reports
              (Sample.world
                 (Completed 1 [Byte.x6f; Byte.x6f; Byte.x70; Byte.x73]) None)
              [lit "linter.py"; lit "a.py"; lit "notes.txt"; lit "b.py"]
              (lit "/repo")) as (Hend & Hprinted & _).
  - simpl. lia.
  - intros f Hf. simpl in Hf.
    repeat (apply elem_of_cons in Hf as [-> | Hf]; [eexists; reflexivity|]).
    by apply elem_of_nil in Hf.
  - split; [exact Hend|exact Hprinted].
Defined.

Lemma main_stops_at_fault_witness :
  snd (main (Faulty.unreadable
               (Completed 1 [Byte.x6f; Byte.x6f; Byte.x70; Byte.x73]))
         [lit "linter.py"; lit "a.py"; lit "gone.py"; lit "b.py"]
         (lit "/repo"))
  = Uncaught Faulty.FileNotFoundError
  /\ printed
       (fst (main (Faulty.unreadable
                     (Completed 1 [Byte.x6f; Byte.x6f; Byte.x70; Byte.x73]))
               [lit "linter.py"; lit "a.py"; lit "gone.py"; lit "b.py"]
               (lit "/repo")))
     = [run_cmd_header ++ lit "oops"]
  /\ calls
       (fst (main (Faulty.unreadable
                     (Completed 1 [Byte.x6f; Byte.x6f; Byte.x70; Byte.x73]))
               [lit "linter.py"; lit "a.py"; lit "gone.py"; lit "b.py"]
               (lit "/repo")))
     = [EvReadText (lit "a.py") (lit "utf-8");
        EvCheckOutput
          [lit "pre-commit"; lit "run"; lit "--files"; lit "a.py"]
          (Some (lit "/repo"));
        EvReadText (lit "gone.py") (lit "utf-8")].
Proof.
  apply (main_stops_at_fault
           (Faulty.unreadable
              (Completed 1 [Byte.x6f; Byte.x6f; Byte.x70; Byte.x73]))
           [lit "linter.py"; lit "a.py"; lit "gone.py"; lit "b.py"]
           (lit "/repo") [lit "a.py"] [lit "b.py"] (lit "gone.py")
           Faulty.FileNotFoundError).
  - simpl. lia.
  - reflexivity.
  - intros g Hg.
    repeat (apply elem_of_cons in Hg as [-> | Hg]; [eexists; reflexivity|]).
    by apply elem_of_nil in Hg.
  - reflexivity.
Defined.

(** ** Edge cases of the registry and of the header *)

(** X17. Registering the empty string as the command of a language is
    the same as having no handler for it: no command is run and the file
    goes to the scanner. *)
Theorem lint_empty_template (W : World) (self : Linter) (lang fname : str) :
  lint W (set_linter self lang (Template [])) fname
  = lint W (mkLinter (encoding self) (root self)
              (delete lang (languages self))) fname.
Proof.
  unfold lint.
  destruct (filename_to_lang W fname) as [[|c l]|]; try done.
  change (get_rel_fname W (set_linter self lang (Template [])) fname)
    with (get_rel_fname W self fname).
  change (get_rel_fname W (mkLinter (encoding self) (root self)
                             (delete lang (languages self))) fname)
    with (get_rel_fname W self fname).
  destruct (get_rel_fname W self fname) as [rel_fname|e]; [|done].
  rewrite !bind_lift_Return, !bind_emit. simpl encoding.
  destruct (read_text W fname (encoding self)) as [code|e]; [|done].
  rewrite !bind_lift_Return. simpl languages.
  destruct (decide (lang = c :: l)) as [->|Hne].
  - by rewrite lookup_insert_eq, lookup_delete_eq.
  - by rewrite lookup_insert_ne, lookup_delete_ne.
Qed.

Lemma size_gt_1_iff (X : gset Z) :
  (1 < size X)%nat <-> exists x y, x ∈ X /\ y ∈ X /\ x ≠ y.
Proof.
  split.
  - intros Hsize.
    destruct (set_choose_L X) as [x Hx].
    { intros ->. rewrite size_empty in Hsize. lia. }
    destruct (set_choose_L (X ∖ {[x]})) as [y Hy].
    { intros Hempty.
      assert (size (X ∖ {[x]}) = size X - size ({[x]} : gset Z))%nat as Hd
        by (apply size_difference; set_solver).
      rewrite Hempty, size_empty, size_singleton in Hd. lia. }
    exists x, y. set_solver.
  - intros (x & y & Hx & Hy & Hne).
    assert (({[x; y]} : gset Z) ⊆ X) as Hsub by set_solver.
    apply subseteq_size in Hsub.
    rewrite size_union, !size_singleton in Hsub by set_solver. lia.
Qed.

(** X18. The instruction line of a report of [basic_lint] counts lines,
    not errors: it is in the plural exactly when two ERROR or missing
    nodes of the tree start on different lines. *)
Theorem basic_lint_plural_iff (W : World) (fname code lang : str)
    (parser : str -> Node) (res : str) :
  filename_to_lang W fname = Some lang -> lang ≠ [] ->
  get_parser W lang = Return parser ->
  basic_lint W fname code = mret (Some res) ->
  startswith res
    (lit "# Fix the errors, see relevant lines below marked with ") = true
  <-> exists n m,
        subnode n (parser code) /\ is_error n = true
        /\ subnode m (parser code) /\ is_error m = true
        /\ start_line n ≠ start_line m.
Proof.
  intros Hlang Hne Hparser.
  rewrite (basic_lint_resolved W fname code lang parser) by done.
  destruct (encode code) as [b|]; [|done].
  destruct (decide (height (parser code) <= recursion_frames W)%nat); [|done].
  destruct (error_lines (parser code)) as [|l0 ls] eqn:Hscan; [done|].
  intros [= <-]. rewrite <- Hscan.
  rewrite (proj1 (tree_context_header W fname code _)).
  rewrite bool_decide_eq_true, size_gt_1_iff. split.
  - intros (x & y & Hx & Hy & Hxy).
    rewrite elem_of_list_to_set, elem_of_error_lines in Hx, Hy.
    destruct Hx as (n & Hn & Hen & <-). destruct Hy as (m & Hm & Hem & <-).
    by exists n, m.
  - intros (n & m & Hn & Hen & Hm & Hem & Hnm).
    exists (start_line n), (start_line m).
    rewrite !elem_of_list_to_set, !elem_of_error_lines.
    split; [by exists n|]. split; [by exists m|done].
Qed.

Lemma basic_lint_plural_iff_witness :
  startswith (tree_context Sample.quiet (lit "bad.py") Sample.code_bad [0; 0])
    (lit "# Fix the errors, see relevant lines below marked with ") = true
  <-> exists n m,
        subnode n (Sample.parser Sample.code_bad) /\ is_error n = true
        /\ subnode m (Sample.parser Sample.code_bad) /\ is_error m = true
        /\ start_line n ≠ start_line m.
Proof.
  apply (basic_lint_plural_iff Sample.quiet (lit "bad.py") Sample.code_bad
           (lit "python") Sample.parser); try reflexivity; discriminate.
Defined.
